(** * provider-aws: a shallow embedding of four of its source files

    The development follows the Go packages of the repository:

    - [HTTPNamespace]: the generated conversions of package httpnamespace
      ([GenerateCreateHttpNamespaceInput], [GenerateUpdateHttpNamespaceInput],
      [IsNotFound]);
    - [IntegrationResponse]: the lifecycle hooks of
      pkg/controller/apigatewayv2/integrationresponse/setup.go;
    - [CRD]: the schema of the ResolverEndpoint custom resource definition
      (package/crds/route53resolver.aws.crossplane.io_resolverendpoints.yaml)
      and the way the API server applies such a schema to a request;
    - [Cache]: the ElastiCache replication group controller, of which the
      sources hold the unit tests (package cache).

    Go pointers to scalars ([*string]) are [option]s, [nil] being [None].
    Go maps are stdpp [gmap]s, slices are lists (a slice that may be [nil] is
    an [option (list _)]).  A pointer to a struct that the callers always
    allocate (the custom resource, the SDK input, the SDK output) is the
    struct itself, and a function that mutates the object behind such a
    pointer returns the new object. *)

From Stdlib Require Import ZArith Ascii String.
From stdpp Require Import base option strings list gmap.

Open Scope string_scope.
Set Warnings "-register-all".

(** ** String helpers ([aws.String], [aws.StringValue])

    setup.go imports the package pkg/clients of this repository under the
    name [aws]; the tests of the cache controller import the SDK's package
    [aws], whose [StringValue] is the same function. *)
Module aws.

(** Modelled from the spec: [String] of pkg/clients is not in the sources.
    It converts a string for use with the SDK: [nil] for the empty string,
    a pointer to the string otherwise. *)
Definition String (v : string) : option string :=
  if bool_decide (v = "") then None else Some v.

(** [aws.StringValue(p)] is the pointed string, or the empty string. *)
Definition StringValue (p : option string) : string :=
  match p with
  | Some v => v
  | None => ""
  end.

End aws.

(** ** Go's [error] interface

    A value of interface type [error] is [nil], or a value whose dynamic type
    implements [awserr.Error] (it then has a [Code()] and a [Message()]), or
    a value of some other dynamic type.  [Error()] gives the text. *)
Inductive error : Type :=
| ErrNil
| ErrAws (code message : string)
| ErrOther (text : string).

Definition IsNil (err : error) : bool :=
  match err with
  | ErrNil => true
  | _ => false
  end.

(** * Package httpnamespace *)
Module HTTPNamespace.

(** [svcapitypes.Tag] *)
Record Tag := { Key : option string; Value : option string }.

(** The fields of [cr.Spec.ForProvider] that the conversions read.  The
    loop over [Tags] reads the key and the value of every element without
    testing the element itself: an element is a tag that is present. *)
Record HTTPNamespaceParameters := {
  Description : option string;
  Name : option string;
  Tags : option (list Tag)
}.

Record HTTPNamespaceSpec := { ForProvider : HTTPNamespaceParameters }.
Record HTTPNamespace := { Spec : HTTPNamespaceSpec }.

(** The SDK's side, package [svcsdk]. *)
Module svcsdk.

Record Tag := { Key : option string; Value : option string }.

Record CreateHttpNamespaceInput := {
  CreatorRequestId : option string;
  Description : option string;
  Name : option string;
  Tags : option (list Tag)
}.

Record HttpNamespaceChange := { ChangeDescription : option string }.

Record UpdateHttpNamespaceInput := {
  Id : option string;
  Namespace : option HttpNamespaceChange;
  UpdaterRequestId : option string
}.

(** The setters of the SDK store a pointer to their argument. *)
Definition SetKey (v : string) (s : Tag) : Tag :=
  {| Key := Some v; Value := Value s |}.
Definition SetValue (v : string) (s : Tag) : Tag :=
  {| Key := Key s; Value := Some v |}.

Definition SetDescription (v : string) (s : CreateHttpNamespaceInput) :=
  {| CreatorRequestId := CreatorRequestId s; Description := Some v;
     Name := Name s; Tags := Tags s |}.
Definition SetName (v : string) (s : CreateHttpNamespaceInput) :=
  {| CreatorRequestId := CreatorRequestId s; Description := Description s;
     Name := Some v; Tags := Tags s |}.
Definition SetTags (v : list Tag) (s : CreateHttpNamespaceInput) :=
  {| CreatorRequestId := CreatorRequestId s; Description := Description s;
     Name := Name s; Tags := Some v |}.

(** [&svcsdk.Tag{}], [&svcsdk.CreateHttpNamespaceInput{}] and
    [&svcsdk.UpdateHttpNamespaceInput{}]: every field is [nil]. *)
Definition emptyTag : Tag := {| Key := None; Value := None |}.
Definition emptyCreateInput : CreateHttpNamespaceInput :=
  {| CreatorRequestId := None; Description := None; Name := None;
     Tags := None |}.
Definition emptyUpdateInput : UpdateHttpNamespaceInput :=
  {| Id := None; Namespace := None; UpdaterRequestId := None |}.

End svcsdk.

(** The body of the loop over [cr.Spec.ForProvider.Tags]. *)
Definition f2elem (f2iter : Tag) : svcsdk.Tag :=
  let e := svcsdk.emptyTag in
  let e := match Key f2iter with
           | Some k => svcsdk.SetKey k e
           | None => e
           end in
  match Value f2iter with
  | Some v => svcsdk.SetValue v e
  | None => e
  end.

(** The loop: [f2] starts empty and grows by [append]. *)
Fixpoint f2loop (f2 : list svcsdk.Tag) (tags : list Tag) : list svcsdk.Tag :=
  match tags with
  | [] => f2
  | f2iter :: rest => f2loop (f2 ++ [f2elem f2iter]) rest
  end.

Definition GenerateCreateHttpNamespaceInput (cr : HTTPNamespace)
  : svcsdk.CreateHttpNamespaceInput :=
  let res := svcsdk.emptyCreateInput in
  let res := match Description (ForProvider (Spec cr)) with
             | Some d => svcsdk.SetDescription d res
             | None => res
             end in
  let res := match Name (ForProvider (Spec cr)) with
             | Some n => svcsdk.SetName n res
             | None => res
             end in
  match Tags (ForProvider (Spec cr)) with
  | Some tags => svcsdk.SetTags (f2loop [] tags) res
  | None => res
  end.

Definition GenerateUpdateHttpNamespaceInput (cr : HTTPNamespace)
  : svcsdk.UpdateHttpNamespaceInput :=
  svcsdk.emptyUpdateInput.

(** [awsErr, ok := err.(awserr.Error); return ok && awsErr.Code() == "UNKNOWN"] *)
Definition IsNotFound (err : error) : bool :=
  match err with
  | ErrAws code _ => bool_decide (code = "UNKNOWN")
  | _ => false
  end.

(** The not-found codes that the servicediscovery SDK declares
    ([ErrCodeNamespaceNotFound] and its siblings). *)
Definition ErrCodeNamespaceNotFound : string := "NamespaceNotFound".
Definition ErrCodeServiceNotFound : string := "ServiceNotFound".
Definition ErrCodeInstanceNotFound : string := "InstanceNotFound".
Definition ErrCodeOperationNotFound : string := "OperationNotFound".
Definition ErrCodeResourceNotFoundException : string :=
  "ResourceNotFoundException".

Definition notFoundCodes : list string :=
  [ ErrCodeNamespaceNotFound; ErrCodeServiceNotFound;
    ErrCodeInstanceNotFound; ErrCodeOperationNotFound;
    ErrCodeResourceNotFoundException ].

(** What the specification expects of an update input, in its own words:
    the fields of [spec.forProvider] are copied into it.  The only field of
    the SDK's update input that has a counterpart in [spec.forProvider] is
    the description of the namespace change. *)
Definition copiesForProvider (cr : HTTPNamespace)
    (res : svcsdk.UpdateHttpNamespaceInput) : Prop :=
  forall d, Description (ForProvider (Spec cr)) = Some d ->
    exists ch, svcsdk.Namespace res = Some ch /\
               svcsdk.ChangeDescription ch = Some d.

(** A namespace whose spec describes it and tags it. *)
Definition describedNamespace : HTTPNamespace :=
  {| Spec := {| ForProvider :=
       {| Description := Some "orders";
          Name := Some "shop";
          Tags := Some [ {| Key := Some "team"; Value := Some "a" |} ] |} |} |}.

(** A namespace whose list of tags is empty but not nil. *)
Definition untaggedNamespace : HTTPNamespace :=
  {| Spec := {| ForProvider :=
       {| Description := None; Name := None; Tags := Some [] |} |} |}.

End HTTPNamespace.

(** * crossplane-runtime: conditions, annotations, reconciler results *)

(** [metav1.Time], as seconds since the epoch.  The clock is an input of the
    functions that read it. *)
Definition Time := Z.

Module xpv1.

(** [xpv1.Condition]; [ConditionType], [ConditionStatus] and
    [ConditionReason] are Go string types. *)
Record Condition := {
  Type_ : string;
  Status : string;
  LastTransitionTime : Time;
  Reason : string;
  Message : string
}.

Definition TypeReady : string := "Ready".
Definition ConditionTrue : string := "True".
Definition ReasonAvailable : string := "Available".

(** [xpv1.Available()] *)
Definition Available (now : Time) : Condition :=
  {| Type_ := TypeReady; Status := ConditionTrue; LastTransitionTime := now;
     Reason := ReasonAvailable; Message := "" |}.

(** [Condition.Equal] ignores the transition time. *)
Definition Equal (c other : Condition) : bool :=
  bool_decide (Type_ c = Type_ other) && bool_decide (Status c = Status other)
  && bool_decide (Reason c = Reason other)
  && bool_decide (Message c = Message other).

(** One round of the outer loop of [ConditionedStatus.SetConditions]: an
    existing condition of the same type is kept when it is [Equal] to the
    new one and overwritten otherwise; a new type is appended. *)
Definition SetCondition (new : Condition) (cs : list Condition)
  : list Condition :=
  let cs' := (fun existing =>
                if bool_decide (Type_ existing = Type_ new)
                then (if Equal existing new then existing else new)
                else existing) <$> cs in
  if existsb (fun existing => bool_decide (Type_ existing = Type_ new)) cs
  then cs' else cs' ++ [new].

Definition SetConditions (c : list Condition) (cs : list Condition)
  : list Condition :=
  foldl (fun acc new => SetCondition new acc) cs c.


End xpv1.

Module meta.

Definition AnnotationKeyExternalName : string := "crossplane.io/external-name".

(** [meta.GetExternalName]: a missing key of a Go map reads as [""]. *)
Definition GetExternalName (annotations : gmap string string) : string :=
  default "" (annotations !! AnnotationKeyExternalName).

(** [meta.SetExternalName], through [meta.AddAnnotations]. *)
Definition SetExternalName (name : string) (annotations : gmap string string)
  : gmap string string :=
  <[AnnotationKeyExternalName := name]> annotations.

End meta.

Module managed.

Record ExternalObservation := {
  ResourceExists : bool;
  ResourceUpToDate : bool;
  ResourceLateInitialized : bool;
  ObservationConnectionDetails : gmap string string;
  Diff : string
}.

Record ExternalCreation := {
  ExternalNameAssigned : bool;
  CreationConnectionDetails : gmap string string
}.

(** [managed.ExternalObservation{}] and [managed.ExternalCreation{}] *)
Definition zeroObservation : ExternalObservation :=
  {| ResourceExists := false; ResourceUpToDate := false;
     ResourceLateInitialized := false; ObservationConnectionDetails := ∅;
     Diff := "" |}.
Definition zeroCreation : ExternalCreation :=
  {| ExternalNameAssigned := false; CreationConnectionDetails := ∅ |}.

End managed.

(** * Package integrationresponse *)
Module IntegrationResponse.

(** The parts of [cr.Spec.ForProvider] that the hooks read; [APIID] and
    [IntegrationID] come from the embedded custom parameters. *)
Record IntegrationResponseParameters := {
  Region : string;
  ContentHandlingStrategy : option string;
  IntegrationResponseKey : option string;
  TemplateSelectionExpression : option string;
  APIID : option string;
  IntegrationID : option string
}.

Record IntegrationResponseSpec := { ForProvider : IntegrationResponseParameters }.

(** [svcapitypes.IntegrationResponse]: object metadata, spec, and the
    conditions of its status. *)
Record IntegrationResponse := {
  Annotations : gmap string string;
  Spec : IntegrationResponseSpec;
  Conditions : list xpv1.Condition
}.

Definition SetAnnotations (a : gmap string string) (cr : IntegrationResponse) :=
  {| Annotations := a; Spec := Spec cr; Conditions := Conditions cr |}.

(** [cr.SetConditions(c...)] *)
Definition SetConditions (c : list xpv1.Condition) (cr : IntegrationResponse) :=
  {| Annotations := Annotations cr; Spec := Spec cr;
     Conditions := xpv1.SetConditions c (Conditions cr) |}.

Module svcsdk.

Record GetIntegrationResponseInput := {
  GetApiId : option string;
  GetIntegrationId : option string;
  GetIntegrationResponseId : option string
}.

Record CreateIntegrationResponseInput := {
  ApiId : option string;
  ContentHandlingStrategy : option string;
  IntegrationId : option string;
  IntegrationResponseKey : option string;
  ResponseParameters : gmap string (option string);
  ResponseTemplates : gmap string (option string);
  TemplateSelectionExpression : option string
}.

Record CreateIntegrationResponseOutput := {
  OutContentHandlingStrategy : option string;
  OutIntegrationResponseId : option string;
  OutIntegrationResponseKey : option string;
  OutResponseParameters : gmap string (option string);
  OutResponseTemplates : gmap string (option string);
  OutTemplateSelectionExpression : option string
}.

Record DeleteIntegrationResponseInput := {
  DelApiId : option string;
  DelIntegrationId : option string;
  DelIntegrationResponseId : option string
}.

(** [GetIntegrationResponseOutput] is passed to [postObserve], which
    ignores it. *)
Record GetIntegrationResponseOutput := {
  GotIntegrationResponseId : option string;
  GotIntegrationResponseKey : option string
}.

End svcsdk.

(** Each hook returns the objects behind its pointer arguments as the hook
    leaves them, followed by its Go results. *)

Definition preObserve (cr : IntegrationResponse)
    (obj : svcsdk.GetIntegrationResponseInput)
  : svcsdk.GetIntegrationResponseInput * error :=
  let obj := {| svcsdk.GetApiId := APIID (ForProvider (Spec cr));
                svcsdk.GetIntegrationId := svcsdk.GetIntegrationId obj;
                svcsdk.GetIntegrationResponseId :=
                  svcsdk.GetIntegrationResponseId obj |} in
  let obj := {| svcsdk.GetApiId := svcsdk.GetApiId obj;
                svcsdk.GetIntegrationId := IntegrationID (ForProvider (Spec cr));
                svcsdk.GetIntegrationResponseId :=
                  svcsdk.GetIntegrationResponseId obj |} in
  let obj := {| svcsdk.GetApiId := svcsdk.GetApiId obj;
                svcsdk.GetIntegrationId := svcsdk.GetIntegrationId obj;
                svcsdk.GetIntegrationResponseId :=
                  aws.String (meta.GetExternalName (Annotations cr)) |} in
  (obj, ErrNil).

Definition postObserve (now : Time) (cr : IntegrationResponse)
    (resp : svcsdk.GetIntegrationResponseOutput)
    (obs : managed.ExternalObservation) (err : error)
  : IntegrationResponse * (managed.ExternalObservation * error) :=
  if negb (IsNil err) then (cr, (managed.zeroObservation, err))
  else
    let cr := SetConditions [xpv1.Available now] cr in
    (cr, (obs, ErrNil)).

Definition preCreate (cr : IntegrationResponse)
    (obj : svcsdk.CreateIntegrationResponseInput)
  : svcsdk.CreateIntegrationResponseInput * error :=
  let obj := {| svcsdk.ApiId := APIID (ForProvider (Spec cr));
                svcsdk.ContentHandlingStrategy := svcsdk.ContentHandlingStrategy obj;
                svcsdk.IntegrationId := svcsdk.IntegrationId obj;
                svcsdk.IntegrationResponseKey := svcsdk.IntegrationResponseKey obj;
                svcsdk.ResponseParameters := svcsdk.ResponseParameters obj;
                svcsdk.ResponseTemplates := svcsdk.ResponseTemplates obj;
                svcsdk.TemplateSelectionExpression :=
                  svcsdk.TemplateSelectionExpression obj |} in
  let obj := {| svcsdk.ApiId := svcsdk.ApiId obj;
                svcsdk.ContentHandlingStrategy := svcsdk.ContentHandlingStrategy obj;
                svcsdk.IntegrationId := IntegrationID (ForProvider (Spec cr));
                svcsdk.IntegrationResponseKey := svcsdk.IntegrationResponseKey obj;
                svcsdk.ResponseParameters := svcsdk.ResponseParameters obj;
                svcsdk.ResponseTemplates := svcsdk.ResponseTemplates obj;
                svcsdk.TemplateSelectionExpression :=
                  svcsdk.TemplateSelectionExpression obj |} in
  (obj, ErrNil).

Definition postCreate (cr : IntegrationResponse)
    (resp : svcsdk.CreateIntegrationResponseOutput)
    (cre : managed.ExternalCreation) (err : error)
  : IntegrationResponse * (managed.ExternalCreation * error) :=
  if negb (IsNil err) then (cr, (managed.zeroCreation, err))
  else
    let cr := SetAnnotations
                (meta.SetExternalName
                   (aws.StringValue (svcsdk.OutIntegrationResponseId resp))
                   (Annotations cr)) cr in
    (cr, (cre, ErrNil)).

Definition preDelete (cr : IntegrationResponse)
    (obj : svcsdk.DeleteIntegrationResponseInput)
  : svcsdk.DeleteIntegrationResponseInput * (bool * error) :=
  let obj := {| svcsdk.DelApiId := APIID (ForProvider (Spec cr));
                svcsdk.DelIntegrationId := svcsdk.DelIntegrationId obj;
                svcsdk.DelIntegrationResponseId :=
                  svcsdk.DelIntegrationResponseId obj |} in
  let obj := {| svcsdk.DelApiId := svcsdk.DelApiId obj;
                svcsdk.DelIntegrationId := IntegrationID (ForProvider (Spec cr));
                svcsdk.DelIntegrationResponseId :=
                  svcsdk.DelIntegrationResponseId obj |} in
  let obj := {| svcsdk.DelApiId := svcsdk.DelApiId obj;
                svcsdk.DelIntegrationId := svcsdk.DelIntegrationId obj;
                svcsdk.DelIntegrationResponseId :=
                  aws.String (meta.GetExternalName (Annotations cr)) |} in
  (obj, (false, ErrNil)).

(** An integration response that has no external name yet, and what the
    API returns for it. *)
Definition freshResponse : IntegrationResponse :=
  {| Annotations := ∅;
     Spec := {| ForProvider :=
       {| Region := "eu-west-1"; ContentHandlingStrategy := None;
          IntegrationResponseKey := Some "/200/"; TemplateSelectionExpression := None;
          APIID := Some "api1"; IntegrationID := Some "int1" |} |};
     Conditions := [] |}.

Definition gotNothing : svcsdk.GetIntegrationResponseOutput :=
  {| svcsdk.GotIntegrationResponseId := None;
     svcsdk.GotIntegrationResponseKey := None |}.


(** An integration response that was created as abc and observed once
    while it was being created. *)
Definition observedResponse : IntegrationResponse :=
  {| Annotations := {[ meta.AnnotationKeyExternalName := "abc" ]};
     Spec := Spec freshResponse;
     Conditions :=
       [ {| xpv1.Type_ := "Synced"; xpv1.Status := "True";
            xpv1.LastTransitionTime := 10%Z;
            xpv1.Reason := "ReconcileSuccess"; xpv1.Message := "" |};
         {| xpv1.Type_ := xpv1.TypeReady; xpv1.Status := "False";
            xpv1.LastTransitionTime := 10%Z;
            xpv1.Reason := "Creating"; xpv1.Message := "" |} ] |}.

Definition emptyGetInput : svcsdk.GetIntegrationResponseInput :=
  {| svcsdk.GetApiId := None; svcsdk.GetIntegrationId := None;
     svcsdk.GetIntegrationResponseId := None |}.

End IntegrationResponse.

(** * The ResolverEndpoint custom resource definition *)
Module CRD.

(** JSON values, as the API server decodes a request body.  An object keeps
    its members in order; a key is looked up from the front. *)
Inductive JSON : Type :=
| JNull
| JBool (b : bool)
| JInt (n : Z)
| JFloat (literal : string)
| JString (s : string)
| JArray (elems : list JSON)
| JObject (members : list (string * JSON)).

Fixpoint assoc {A : Type} (k : string) (l : list (string * A)) : option A :=
  match l with
  | [] => None
  | (k', a) :: l' => if bool_decide (k' = k) then Some a else assoc k l'
  end.

Definition member (k : string) (x : JSON) : option JSON :=
  match x with
  | JObject f => assoc k f
  | _ => None
  end.

Definition isNull (x : JSON) : bool :=
  match x with
  | JNull => true
  | _ => false
  end.

Fixpoint json_eqb (x y : JSON) {struct x} : bool :=
  match x, y with
  | JNull, JNull => true
  | JBool a, JBool b => bool_decide (a = b)
  | JInt a, JInt b => bool_decide (a = b)
  | JFloat a, JFloat b => bool_decide (a = b)
  | JString a, JString b => bool_decide (a = b)
  | JArray a, JArray b =>
      (fix elems (a b : list JSON) {struct a} : bool :=
         match a, b with
         | [], [] => true
         | x :: a', y :: b' => json_eqb x y && elems a' b'
         | _, _ => false
         end) a b
  | JObject a, JObject b =>
      (fix members (a b : list (string * JSON)) {struct a} : bool :=
         match a, b with
         | [], [] => true
         | (k, x) :: a', (k', y) :: b' =>
             bool_decide (k = k') && json_eqb x y && members a' b'
         | _, _ => false
         end) a b
  | _, _ => false
  end.

(** The keywords of an OpenAPI v3 schema that the definition uses
    ([description] is documentation and is left out).  An empty [type_] or
    [format] and an empty [enum] stand for an absent keyword.  No schema of
    the definition is [nullable]. *)
Inductive Schema : Type :=
| Sch (type_ : string)
      (properties : list (string * Schema))
      (required : list string)
      (items : option Schema)
      (additionalProperties : option Schema)
      (enum : list JSON)
      (default_ : option JSON)
      (format : string).

Definition type_ (s : Schema) := let (t, _, _, _, _, _, _, _) := s in t.
Definition properties (s : Schema) := let (_, p, _, _, _, _, _, _) := s in p.
Definition required (s : Schema) := let (_, _, r, _, _, _, _, _) := s in r.
Definition items (s : Schema) := let (_, _, _, i, _, _, _, _) := s in i.
Definition additionalProperties (s : Schema) :=
  let (_, _, _, _, a, _, _, _) := s in a.
Definition enum (s : Schema) := let (_, _, _, _, _, e, _, _) := s in e.
Definition default_ (s : Schema) := let (_, _, _, _, _, _, d, _) := s in d.
Definition format (s : Schema) := let (_, _, _, _, _, _, _, f) := s in f.

(** The schema that governs member [k] of an object: its entry in
    [properties], else [additionalProperties]. *)
Definition memberSchema (s : Schema) (k : string) : option Schema :=
  match assoc k (properties s) with
  | Some p => Some p
  | None => additionalProperties s
  end.

(** ** The schema of the CRD, version v1alpha1 *)

Definition string_ : Schema := Sch "string" [] [] None None [] None "".
Definition boolean_ : Schema := Sch "boolean" [] [] None None [] None "".
Definition object_ (props : list (string * Schema)) (req : list string) : Schema :=
  Sch "object" props req None None [] None "".
Definition array_ (item : Schema) : Schema :=
  Sch "array" [] [] (Some item) None [] None "".

(** [name] is required: the shape of every reference to a named object. *)
Definition reference : Schema := object_ [("name", string_)] ["name"].

Definition selector : Schema :=
  object_ [ ("matchControllerRef", boolean_);
            ("matchLabels",
             Sch "object" [] [] None (Some string_) [] None "") ] [].

Definition deletionPolicy : Schema :=
  Sch "string" [] [] None None [JString "Orphan"; JString "Delete"]
      (Some (JString "Delete")) "".

Definition ipAddressRequest : Schema :=
  object_ [ ("ip", string_);
            ("subnetId", string_);
            ("subnetIdRef", reference);
            ("subnetIdSelector", selector) ] [].

Definition tag : Schema := object_ [("key", string_); ("value", string_)] [].

Definition forProvider : Schema :=
  object_ [ ("direction", string_);
            ("ipAddresses", array_ ipAddressRequest);
            ("name", string_);
            ("region", string_);
            ("securityGroupIdRefs", array_ reference);
            ("securityGroupIdSelector", selector);
            ("securityGroupIds", array_ string_);
            ("tags", array_ tag) ]
          ["direction"; "ipAddresses"; "region"].

Definition providerConfigRef : Schema :=
  Sch "object" [("name", string_)] ["name"] None None []
      (Some (JObject [("name", JString "default")])) "".

Definition writeConnectionSecretToRef : Schema :=
  object_ [("name", string_); ("namespace", string_)] ["name"; "namespace"].

Definition spec : Schema :=
  object_ [ ("deletionPolicy", deletionPolicy);
            ("forProvider", forProvider);
            ("providerConfigRef", providerConfigRef);
            ("providerRef", reference);
            ("writeConnectionSecretToRef", writeConnectionSecretToRef) ]
          ["forProvider"].

Definition atProvider : Schema :=
  object_ [ ("arn", string_);
            ("creationTime", string_);
            ("creatorRequestID", string_);
            ("hostVPCID", string_);
            ("id", string_);
            ("ipAddressCount", Sch "integer" [] [] None None [] None "int64");
            ("modificationTime", string_);
            ("securityGroupIDs", array_ string_);
            ("status", string_);
            ("statusMessage", string_) ] [].

Definition condition : Schema :=
  object_ [ ("lastTransitionTime", Sch "string" [] [] None None [] None "date-time");
            ("message", string_);
            ("reason", string_);
            ("status", string_);
            ("type", string_) ]
          ["lastTransitionTime"; "reason"; "status"; "type"].

Definition status : Schema :=
  object_ [("atProvider", atProvider); ("conditions", array_ condition)] [].

Definition openAPIV3Schema : Schema :=
  object_ [ ("apiVersion", string_);
            ("kind", string_);
            ("metadata", object_ [] []);
            ("spec", spec);
            ("status", status) ]
          ["spec"].

(** ** The API server's treatment of a request against a structural schema

    The body is pruned of unknown members, explicit nulls without a default
    are dropped, defaults are filled in, and the result is validated.  The
    check of a [format] keyword belongs to the server's format registry and
    is a parameter here. *)
Section Pipeline.

Variable formatOK : string -> JSON -> bool.

(** [apiVersion], [kind] and [metadata] are never pruned at the root. *)
Definition metaField (k : string) : bool :=
  bool_decide (k = "apiVersion") || bool_decide (k = "kind")
  || bool_decide (k = "metadata").

Fixpoint prune (isRoot : bool) (s : option Schema) (x : JSON) {struct x} : JSON :=
  match x with
  | JObject f =>
      JObject
        ((fix members (f : list (string * JSON)) : list (string * JSON) :=
            match f with
            | [] => []
            | (k, v) :: f' =>
                if isRoot && metaField k then (k, v) :: members f'
                else match s ≫= (fun s => memberSchema s k) with
                     | Some p => (k, prune false (Some p) v) :: members f'
                     | None => members f'
                     end
            end) f)
  | JArray l => JArray (List.map (prune false (s ≫= items)) l)
  | _ => x
  end.

Fixpoint dropNulls (s : Schema) (x : JSON) {struct x} : JSON :=
  match x with
  | JObject f =>
      JObject
        ((fix members (f : list (string * JSON)) : list (string * JSON) :=
            match f with
            | [] => []
            | (k, v) :: f' =>
                match memberSchema s k with
                | Some p =>
                    if isNull v && negb (bool_decide (is_Some (default_ p)))
                    then members f'
                    else (k, dropNulls p v) :: members f'
                | None => (k, v) :: members f'
                end
            end) f)
  | JArray l =>
      match items s with
      | Some p => JArray (List.map (dropNulls p) l)
      | None => x
      end
  | _ => x
  end.

(** A null is replaced by the default of its schema, when there is one. *)
Definition orDefault (p : Schema) (v : JSON) : JSON :=
  if isNull v then default v (default_ p) else v.

(** The defaults of the properties that the object lacks, in the order of
    [properties]. *)
Definition missingDefaults (props : list (string * Schema))
    (f : list (string * JSON)) : list (string * JSON) :=
  omap (fun kp : string * Schema =>
          match assoc kp.1 f, default_ kp.2 with
          | None, Some d => Some (kp.1, d)
          | _, _ => None
          end) props.

Fixpoint Default (s : Schema) (x : JSON) {struct s} : JSON :=
  match s with
  | Sch _ props _ its addl _ _ _ =>
      let sub (k : string) (v : JSON) : JSON :=
        (fix find (ps : list (string * Schema)) : JSON :=
           match ps with
           | [] => match addl with
                   | Some a => Default a (orDefault a v)
                   | None => v
                   end
           | (k', p) :: ps' =>
               if bool_decide (k' = k) then Default p (orDefault p v)
               else find ps'
           end) props in
      match x with
      | JObject f =>
          JObject ((fun kv : string * JSON => (kv.1, sub kv.1 kv.2))
                     <$> (f ++ missingDefaults props f)%list)
      | JArray l =>
          match its with
          | Some p => JArray ((fun v => Default p (orDefault p v)) <$> l)
          | None => x
          end
      | _ => x
      end
  end.

Definition typeOK (t : string) (x : JSON) : bool :=
  if bool_decide (t = "") then true
  else match x with
       | JNull => false
       | JBool _ => bool_decide (t = "boolean")
       | JInt _ => bool_decide (t = "integer") || bool_decide (t = "number")
       | JFloat _ => bool_decide (t = "number")
       | JString _ => bool_decide (t = "string")
       | JArray _ => bool_decide (t = "array")
       | JObject _ => bool_decide (t = "object")
       end.

Definition enumOK (e : list JSON) (x : JSON) : bool :=
  match e with
  | [] => true
  | _ => existsb (json_eqb x) e
  end.

Fixpoint validate (s : Schema) (x : JSON) {struct x} : bool :=
  typeOK (type_ s) x && enumOK (enum s) x
  && (bool_decide (format s = "") || formatOK (format s) x)
  && match x with
     | JObject f =>
         forallb (fun k => bool_decide (is_Some (assoc k f))) (required s)
         && (fix members (f : list (string * JSON)) : bool :=
               match f with
               | [] => true
               | (k, v) :: f' =>
                   match memberSchema s k with
                   | Some p => validate p v
                   | None => true
                   end && members f'
               end) f
     | JArray l =>
         match items s with
         | Some p => forallb (validate p) l
         | None => true
         end
     | _ => true
     end.

(** What each pass does to one member of an object. *)
Definition pruneMember (isRoot : bool) (s : option Schema) (kv : string * JSON)
  : option (string * JSON) :=
  if isRoot && metaField kv.1 then Some kv
  else match s ≫= (fun s => memberSchema s kv.1) with
       | Some p => Some (kv.1, prune false (Some p) kv.2)
       | None => None
       end.

Definition dropNullsMember (s : Schema) (kv : string * JSON)
  : option (string * JSON) :=
  match memberSchema s kv.1 with
  | Some p =>
      if isNull kv.2 && negb (bool_decide (is_Some (default_ p))) then None
      else Some (kv.1, dropNulls p kv.2)
  | None => Some kv
  end.

Definition defaultMember (s : Schema) (kv : string * JSON) : string * JSON :=
  (kv.1, match memberSchema s kv.1 with
         | Some p => Default p (orDefault p kv.2)
         | None => kv.2
         end).

Definition validMember (s : Schema) (kv : string * JSON) : bool :=
  match memberSchema s kv.1 with
  | Some p => validate p kv.2
  | None => true
  end.

(** The object that the server stores for a request body, if it accepts
    the body. *)
Definition accept (s : Schema) (body : JSON) : option JSON :=
  let x := prune true (Some s) body in
  let x := dropNulls s x in
  let x := Default s x in
  if validate s x then Some x else None.

End Pipeline.

(** ** Requests against the schema *)

Definition endpointBody (specMembers forProviderMembers : list (string * JSON)) : JSON :=
  JObject [ ("apiVersion", JString "route53resolver.aws.crossplane.io/v1alpha1");
            ("kind", JString "ResolverEndpoint");
            ("metadata", JObject [("name", JString "inbound")]);
            ("spec", JObject (specMembers ++
               [("forProvider", JObject forProviderMembers)])%list) ].

Definition twoAddresses : JSON :=
  JArray [ JObject [("subnetId", JString "subnet-1")];
           JObject [("subnetId", JString "subnet-2"); ("ip", JString "10.0.0.7")] ].

Definition inboundEndpoint : JSON :=
  endpointBody [] [ ("direction", JString "INBOUND");
                    ("ipAddresses", twoAddresses);
                    ("region", JString "eu-west-1");
                    ("colour", JString "blue") ].

(** What is stored for it: the unknown member is pruned, the defaults of
    deletionPolicy and providerConfigRef are filled in. *)
Definition inboundEndpointStored : JSON :=
  JObject [ ("apiVersion", JString "route53resolver.aws.crossplane.io/v1alpha1");
            ("kind", JString "ResolverEndpoint");
            ("metadata", JObject [("name", JString "inbound")]);
            ("spec", JObject
               [ ("forProvider", JObject [ ("direction", JString "INBOUND");
                                           ("ipAddresses", twoAddresses);
                                           ("region", JString "eu-west-1") ]);
                 ("deletionPolicy", JString "Delete");
                 ("providerConfigRef", JObject [("name", JString "default")]) ]) ].

Definition endpointWithoutRegion : JSON :=
  endpointBody [] [ ("direction", JString "INBOUND");
                    ("ipAddresses", twoAddresses) ].

Definition endpointRetained : JSON :=
  endpointBody [("deletionPolicy", JString "Retain")]
               [ ("direction", JString "INBOUND");
                 ("ipAddresses", twoAddresses);
                 ("region", JString "eu-west-1") ].

(** A request with the three required members of forProvider and nothing
    else, and what is stored for it. *)
Definition subnetAddress (subnet : string) : JSON :=
  JObject [("subnetId", JString subnet)].

Definition minimalForProvider (direction region : string) (subnets : list string)
  : JSON :=
  JObject [ ("direction", JString direction);
            ("ipAddresses", JArray (subnetAddress <$> subnets));
            ("region", JString region) ].

Definition minimalEndpoint (direction region : string) (subnets : list string)
  : JSON :=
  JObject [ ("apiVersion", JString "route53resolver.aws.crossplane.io/v1alpha1");
            ("kind", JString "ResolverEndpoint");
            ("metadata", JObject [("name", JString "inbound")]);
            ("spec", JObject
               [("forProvider", minimalForProvider direction region subnets)]) ].

Definition minimalEndpointStored (direction region : string)
    (subnets : list string) : JSON :=
  JObject [ ("apiVersion", JString "route53resolver.aws.crossplane.io/v1alpha1");
            ("kind", JString "ResolverEndpoint");
            ("metadata", JObject [("name", JString "inbound")]);
            ("spec", JObject
               [ ("forProvider", minimalForProvider direction region subnets);
                 ("deletionPolicy", JString "Delete");
                 ("providerConfigRef", JObject [("name", JString "default")]) ]) ].

(** A request that spells its deletion policy as null. *)
Definition endpointNullPolicy : JSON :=
  endpointBody [("deletionPolicy", JNull)]
               [ ("direction", JString "INBOUND");
                 ("ipAddresses", twoAddresses);
                 ("region", JString "eu-west-1") ].


End CRD.

(** * FNV-1a, 64 bits (Go's hash/fnv), and [%x] *)
Module fnv.

Definition offset64 : Z := 14695981039346656037.
Definition prime64 : Z := 1099511628211.

(** One byte of [sum64a.Write]: xor, then multiply modulo [2^64]. *)
Definition step (hash : Z) (c : ascii) : Z :=
  (Z.lxor hash (Z.of_N (N_of_ascii c)) * prime64) mod 2 ^ 64.

Fixpoint write (hash : Z) (data : string) : Z :=
  match data with
  | EmptyString => hash
  | String c rest => write (step hash c) rest
  end.

(** [h := fnv.New64a(); h.Write(data); h.Sum64()] *)
Definition Sum64a (data : string) : Z := write offset64 data.

Definition hexDigit (d : Z) : ascii :=
  default "0"%char (list_ascii_of_string "0123456789abcdef" !! Z.to_nat d).

Fixpoint hexFrom (digits : nat) (n : Z) (acc : string) : string :=
  match digits with
  | O => acc
  | S digits' =>
      let acc' := String (hexDigit (n mod 16)) acc in
      if (n / 16 =? 0)%Z then acc' else hexFrom digits' (n / 16) acc'
  end.

(** [fmt.Sprintf("%x", n)] for a [uint64]: lower case, no leading zero. *)
Definition hex (n : Z) : string := hexFrom 16 n "".

(** Reading a hexadecimal numeral back, digit by digit from the left; used
    to state that [hex] loses nothing. *)
Definition digitValue (c : ascii) : option Z :=
  (fix find (digits : list ascii) (value : Z) : option Z :=
     match digits with
     | [] => None
     | d :: rest => if bool_decide (d = c) then Some value
                    else find rest (value + 1)%Z
     end) (list_ascii_of_string "0123456789abcdef") 0%Z.

Fixpoint parseFrom (acc : Z) (s : string) : option Z :=
  match s with
  | EmptyString => Some acc
  | String c rest =>
      match digitValue c with
      | Some d => parseFrom (acc * 16 + d) rest
      | None => None
      end
  end.

Definition parseHex (s : string) : option Z := parseFrom 0 s.

End fnv.

(** * Package cache: the ElastiCache replication group controller

    Of this package the sources hold the unit tests only.  The controller is
    modelled after them: each definition below that stands for absent code
    says so, and the test cases are replayed against the model further down. *)

(** The core API group of the controller's time: conditions, reclaim
    policies, the keys of a connection secret. *)
Module corev1alpha1.

(** A condition, up to its transition time (which the tests do not
    compare).  [ConditionType] and [ConditionStatus] are Go string types. *)
Record Condition := {
  Type_ : string;
  Status : string;
  Reason : string;
  Message : string
}.

Definition Pending : string := "Pending".
Definition Creating : string := "Creating".
Definition Deleting : string := "Deleting".
Definition Failed : string := "Failed".
Definition Ready : string := "Ready".

Definition ConditionTrue : string := "True".
Definition ConditionFalse : string := "False".

Definition ReclaimDelete : string := "Delete".
Definition ReclaimRetain : string := "Retain".

Definition ResourceCredentialsSecretEndpointKey : string := "endpoint".
Definition ResourceCredentialsSecretPasswordKey : string := "password".

Definition NewCondition (condType reason msg : string) : Condition :=
  {| Type_ := condType; Status := ConditionTrue; Reason := reason;
     Message := msg |}.

(** Modelled from the spec: [ConditionedStatus.SetCondition] is not in the
    sources.  The condition replaces the one of its type, or is appended
    when the type is new (cases FailedDescribeReplicationGroups and
    SuccessfulSyncWhileGroupCreating of TestSync). *)
Fixpoint SetCondition (c : Condition) (cs : list Condition) : list Condition :=
  match cs with
  | [] => [c]
  | current :: rest =>
      if bool_decide (Type_ current = Type_ c) then c :: rest
      else current :: SetCondition c rest
  end.

(** Modelled from the spec: [ConditionedStatus.UnsetAllConditions] is not
    in the sources.  Every condition that is true becomes false and keeps
    its reason and message (case SuccessfulSyncWhileGroupCreating). *)
Definition UnsetAllConditions (cs : list Condition) : list Condition :=
  (fun c => if bool_decide (Status c = ConditionTrue)
            then {| Type_ := Type_ c; Status := ConditionFalse;
                    Reason := Reason c; Message := Message c |}
            else c) <$> cs.

Definition SetFailed (reason msg : string) := SetCondition (NewCondition Failed reason msg).
Definition SetReady := SetCondition (NewCondition Ready "" "").
Definition SetCreating := SetCondition (NewCondition Creating "" "").
Definition SetDeleting := SetCondition (NewCondition Deleting "" "").


End corev1alpha1.

(** [err.Error()] and [errors.Wrapf] of github.com/pkg/errors. *)
Definition Error (err : error) : string :=
  match err with
  | ErrNil => ""
  | ErrAws code message => code ++ ": " ++ message
  | ErrOther text => text
  end.

Definition Wrapf (err : error) (message : string) : error :=
  match err with
  | ErrNil => ErrNil
  | _ => ErrOther (message ++ ": " ++ Error err)
  end.

Module Cache.

Import corev1alpha1.

(** ** The custom resource, [v1alpha1.ReplicationGroup] *)

Record ObjectMeta := {
  Namespace : string;
  Name : string;
  UID : string;
  Finalizers : list string;
  DeletionTimestamp : option Time
}.

Record ReplicationGroupSpec := {
  AutomaticFailoverEnabled : bool;
  CacheNodeType : string;
  CacheParameterGroupName : string;
  EngineVersion : string;
  PreferredMaintenanceWindow : string;
  SnapshotRetentionLimit : Z;
  SnapshotWindow : string;
  TransitEncryptionEnabled : bool;
  AuthEnabled : bool;
  ProviderRef : string;
  ConnectionSecretRef : string;
  ReclaimPolicy : string
}.

Record ReplicationGroupStatus := {
  Conditions : list Condition;
  State : string;
  GroupName : string;
  ProviderID : string;
  Endpoint : string;
  Port : Z;
  ClusterEnabled : bool;
  MemberClusters : list string
}.

Record ReplicationGroup := {
  Meta : ObjectMeta;
  Spec : ReplicationGroupSpec;
  Status : ReplicationGroupStatus
}.

Definition withStatus (f : ReplicationGroupStatus -> ReplicationGroupStatus)
    (r : ReplicationGroup) : ReplicationGroup :=
  {| Meta := Meta r; Spec := Spec r; Status := f (Status r) |}.

Definition mapConditions (f : list Condition -> list Condition) :=
  withStatus (fun s =>
    {| Conditions := f (Conditions s); State := State s;
       GroupName := GroupName s; ProviderID := ProviderID s;
       Endpoint := Endpoint s; Port := Port s;
       ClusterEnabled := ClusterEnabled s;
       MemberClusters := MemberClusters s |}).

Definition setState (v : string) :=
  withStatus (fun s =>
    {| Conditions := Conditions s; State := v;
       GroupName := GroupName s; ProviderID := ProviderID s;
       Endpoint := Endpoint s; Port := Port s;
       ClusterEnabled := ClusterEnabled s;
       MemberClusters := MemberClusters s |}).

Definition setGroupName (v : string) :=
  withStatus (fun s =>
    {| Conditions := Conditions s; State := State s;
       GroupName := v; ProviderID := ProviderID s;
       Endpoint := Endpoint s; Port := Port s;
       ClusterEnabled := ClusterEnabled s;
       MemberClusters := MemberClusters s |}).

Definition setEndpoint (address : string) (port : Z) :=
  withStatus (fun s =>
    {| Conditions := Conditions s; State := State s;
       GroupName := GroupName s; ProviderID := ProviderID s;
       Endpoint := address; Port := port;
       ClusterEnabled := ClusterEnabled s;
       MemberClusters := MemberClusters s |}).

Definition setMemberClusters (v : list string) :=
  withStatus (fun s =>
    {| Conditions := Conditions s; State := State s;
       GroupName := GroupName s; ProviderID := ProviderID s;
       Endpoint := Endpoint s; Port := Port s;
       ClusterEnabled := ClusterEnabled s;
       MemberClusters := v |}).

Definition setFinalizers (v : list string) (r : ReplicationGroup) :=
  {| Meta := {| Namespace := Namespace (Meta r); Name := Name (Meta r);
                UID := UID (Meta r); Finalizers := v;
                DeletionTimestamp := DeletionTimestamp (Meta r) |};
     Spec := Spec r; Status := Status r |}.

(** Modelled from the spec: [util.AddFinalizer] and [util.RemoveFinalizer]
    are not in the sources.  A finalizer is added once, at the end, and
    removed wherever it occurs. *)
Definition AddFinalizer (name : string) (r : ReplicationGroup) :=
  if bool_decide (name ∈ Finalizers (Meta r)) then r
  else setFinalizers (Finalizers (Meta r) ++ [name])%list r.

(** Modelled from the spec: see [AddFinalizer]. *)
Definition RemoveFinalizer (name : string) (r : ReplicationGroup) :=
  setFinalizers (filter (fun f => f ≠ name) (Finalizers (Meta r))) r.

(** ** Constants that the tests name but do not hold *)

(** Modelled from the spec: the values of the constants below (the statuses
    of a group, the API version and kind, the finalizer, the reasons of a
    failure, the name prefix) are not in the sources; no result depends on
    them. *)
Definition StatusCreating : string := "creating".
Definition StatusAvailable : string := "available".
Definition StatusModifying : string := "modifying".
Definition StatusDeleting : string := "deleting".

Definition APIVersion : string := "cache.aws.crossplane.io/v1alpha1".
Definition ReplicationGroupKind : string := "replicationgroup".

Definition controllerName : string := "replicationgroup.cache.aws.crossplane.io".
Definition finalizerName : string := "finalizer." ++ controllerName.

Definition reasonCreatingResource : string := "failed to create AWS Replication Group".
Definition reasonDeletingResource : string := "failed to delete AWS Replication Group".
Definition reasonSyncingResource : string := "failed to sync AWS Replication Group".

(** [elasticacheclient.NamePrefix] *)
Definition NamePrefix : string := "ec".

(** Modelled from the spec: [elasticacheclient.NewReplicationGroupID] is
    not in the sources.  The tests give its shape: [NamePrefix], a dash,
    and the FNV-64a hash of the UID in hexadecimal. *)
Definition NewReplicationGroupID (r : ReplicationGroup) : string :=
  NamePrefix ++ "-" ++ fnv.hex (fnv.Sum64a (UID (Meta r))).

(** ** The SDK's view of a replication group *)
Module elasticache.

Record Endpoint := { Address : option string; EndpointPort : option Z }.

Record ReplicationGroup := {
  Status : option string;
  MemberClusters : list string;
  AutomaticFailover : string;
  CacheNodeType : option string;
  SnapshotRetentionLimit : option Z;
  SnapshotWindow : option string;
  ConfigurationEndpoint : option Endpoint
}.

Record CacheCluster := {
  EngineVersion : option string;
  PreferredMaintenanceWindow : option string
}.

Definition AutomaticFailoverStatusEnabled : string := "enabled".
Definition AutomaticFailoverStatusDisabled : string := "disabled".

End elasticache.

(** What sending a request gives: the output, or a non-nil error. *)
Inductive Response (A : Type) : Type :=
| Data (output : A)
| Failure (err : error).
Arguments Data {A} output.
Arguments Failure {A} err.

(** [elasticacheclient.Client]: a request names the replication group (or
    the cache cluster) that it is about.  A client holds the answers of one
    run of a method; a later run, which AWS may answer differently, is a run
    with another client. *)
Record Client := {
  CreateReplicationGroupRequest : string -> Response unit;
  DescribeReplicationGroupsRequest :
    string -> Response (list elasticache.ReplicationGroup);
  DescribeCacheClustersRequest :
    string -> Response (list elasticache.CacheCluster);
  ModifyReplicationGroupRequest : string -> Response unit;
  DeleteReplicationGroupRequest : string -> Response unit
}.

(** The requests that a run sends, oldest first. *)
Inductive Call : Type :=
| CreateReplicationGroup (id : string)
| DescribeReplicationGroups (id : string)
| DescribeCacheClusters (id : string)
| ModifyReplicationGroup (id : string)
| DeleteReplicationGroup (id : string).

(** ** Running a method: the resource behind the pointer and the requests
    sent so far are threaded through; [None] is a Go panic. *)
Record Run := { resource : ReplicationGroup; sent : list Call }.

Definition M (A : Type) : Type := Run -> option (A * Run).

Definition ret {A} (a : A) : M A := fun s => Some (a, s).
Definition bind {A B} (m : M A) (k : A -> M B) : M B :=
  fun s => match m s with
           | Some (a, s') => k a s'
           | None => None
           end.
Definition panic {A} : M A := fun _ => None.
Definition read : M ReplicationGroup := fun s => Some (resource s, s).
Definition modify (f : ReplicationGroup -> ReplicationGroup) : M unit :=
  fun s => Some (tt, {| resource := f (resource s); sent := sent s |}).
Definition send {A} (c : Call) (rsp : Response A) : M (Response A) :=
  fun s => Some (rsp, {| resource := resource s; sent := (sent s ++ [c])%list |}).

Declare Scope run_scope.
Delimit Scope run_scope with run.
Notation "'let*' x ':=' m 'in' k" := (bind m (fun x => k))
  (at level 10, x name, m at level 100, k at level 200) : run_scope.
Notation "'do' m 'then' k" := (bind m (fun _ => k))
  (at level 10, m at level 100, k at level 200) : run_scope.
Open Scope run_scope.

(** [rsp.ReplicationGroups[0]]: indexing an empty slice panics. *)
Definition first {A} (l : list A) : M A :=
  match l with
  | a :: _ => ret a
  | [] => panic
  end.

Definition SetFailed_ (reason : string) (err : error) : M unit :=
  modify (mapConditions (SetFailed reason (Error err))).

(** [elastiCache{client: ...}]; the auth token plays no part below. *)
Record elastiCache := { client : Client }.

(** Modelled from the spec: [elastiCache.Create] is not in the sources.
    After TestCreate: the request is sent; on an error the resource is
    marked failed and nothing else changes; otherwise the group name is
    derived from the UID, the resource is marked as being created and the
    finalizer is added.  Either way the resource is requeued. *)
Definition Create (e : elastiCache) : M bool :=
  let* g := read in
  let* rsp := send (CreateReplicationGroup (NewReplicationGroupID g))
                (CreateReplicationGroupRequest (client e) (NewReplicationGroupID g)) in
  match rsp with
  | Failure err =>
      do SetFailed_ reasonCreatingResource err then
      ret true
  | Data _ =>
      do modify (setGroupName (NewReplicationGroupID g)) then
      do modify (mapConditions UnsetAllConditions) then
      do modify (mapConditions SetCreating) then
      do modify (AddFinalizer finalizerName) then
      ret true
  end.

(** Modelled from the spec: the loop of [elastiCache.Sync] over the member
    clusters is not in the sources.  One [DescribeCacheClusters] request is
    sent per member cluster; the first failure stops the loop and is wrapped
    with the cluster's name (case FailedDescribeCacheClusters of TestSync). *)
Fixpoint describeCacheClusters (e : elastiCache) (members : list string)
  : M (Response (list elasticache.CacheCluster)) :=
  match members with
  | [] => ret (Data [])
  | cc :: rest =>
      let* rsp := send (DescribeCacheClusters cc)
                    (DescribeCacheClustersRequest (client e) cc) in
      match rsp with
      | Failure err =>
          ret (Failure (Wrapf err ("cannot describe cache cluster " ++ cc)))
      | Data ccs =>
          let* more := describeCacheClusters e rest in
          match more with
          | Failure err => ret (Failure err)
          | Data ccs' => ret (Data (ccs ++ ccs')%list)
          end
      end
  end.

Section Sync.

(** [elasticacheclient.ReplicationGroupNeedsUpdate] is not in the
    sources; [Sync] only asks it a yes-or-no question. *)
Variable ReplicationGroupNeedsUpdate :
  ReplicationGroup -> elasticache.ReplicationGroup ->
  list elasticache.CacheCluster -> bool.

(** Modelled from the spec: [elastiCache.Sync] is not in the sources.
    After TestSync: the group is described and its status copied into
    [Status.State]; a group that is being deleted is left alone, one that
    is being created or modified is requeued; otherwise the resource is
    marked ready, the connection details and member clusters are
    recorded, the cache clusters are described, and the group is modified
    when it differs from the spec.  Every failed request marks the
    resource failed and requeues it. *)
Definition Sync (e : elastiCache) : M bool :=
  let* g := read in
  let* rsp := send (DescribeReplicationGroups (GroupName (Status g)))
                (DescribeReplicationGroupsRequest (client e) (GroupName (Status g))) in
  match rsp with
  | Failure err =>
      do SetFailed_ reasonSyncingResource err then
      ret true
  | Data groups =>
      let* replicationGroup := first groups in
      let state := aws.StringValue (elasticache.Status replicationGroup) in
      do modify (setState state) then
      if bool_decide (state = StatusDeleting) then ret false
      else if bool_decide (state = StatusCreating) then
        do modify (mapConditions UnsetAllConditions) then
        do modify (mapConditions SetCreating) then
        ret true
      else if bool_decide (state = StatusModifying) then
        do modify (mapConditions UnsetAllConditions) then
        ret true
      else
        do modify (mapConditions UnsetAllConditions) then
        do modify (mapConditions SetReady) then
        do match elasticache.ConfigurationEndpoint replicationGroup with
           | Some ep =>
               modify (setEndpoint (aws.StringValue (elasticache.Address ep))
                                   (default 0%Z (elasticache.EndpointPort ep)))
           | None => ret tt
           end then
        do modify (setMemberClusters (elasticache.MemberClusters replicationGroup)) then
        let* ccList := describeCacheClusters e
                    (elasticache.MemberClusters replicationGroup) in
        match ccList with
        | Failure err =>
            do SetFailed_ reasonSyncingResource err then
            ret true
        | Data ccs =>
            let* g := read in
            if negb (ReplicationGroupNeedsUpdate g replicationGroup ccs)
            then ret false
            else
              let* rsp := send (ModifyReplicationGroup (GroupName (Status g)))
                       (ModifyReplicationGroupRequest (client e)
                          (GroupName (Status g))) in
              match rsp with
              | Failure err =>
                  do SetFailed_ reasonSyncingResource err then
                  ret true
              | Data _ => ret false
              end
        end
  end.

End Sync.

(** Modelled from the spec: [elastiCache.Delete] is not in the sources.
    After TestDelete: the group is deleted at AWS only under the reclaim
    policy Delete; a failed deletion marks the resource failed and requeues
    it; otherwise the resource is marked as being deleted and its
    finalizer is removed. *)
Definition Delete (e : elastiCache) : M bool :=
  let* g := read in
  let* rsp := (if bool_decide (ReclaimPolicy (Spec g) = ReclaimDelete)
          then send (DeleteReplicationGroup (GroupName (Status g)))
                 (DeleteReplicationGroupRequest (client e) (GroupName (Status g)))
          else ret (Data tt)) in
  match rsp with
  | Failure err =>
      do SetFailed_ reasonDeletingResource err then
      ret true
  | Data _ =>
      do modify (mapConditions SetDeleting) then
      do modify (RemoveFinalizer finalizerName) then
      ret false
  end.

(** A method is run on a resource, with no request sent yet. *)
Definition run {A} (m : M A) (r : ReplicationGroup) : option (A * Run) :=
  m {| resource := r; sent := [] |}.

(** ** The connection secret *)

Record OwnerReference := {
  OwnerAPIVersion : string;
  OwnerKind : string;
  OwnerName : string;
  OwnerUID : string;
  Controller : option bool;
  BlockOwnerDeletion : option bool
}.

Record Secret := {
  SecretName : string;
  SecretNamespace : string;
  OwnerReferences : list OwnerReference;
  SecretData : gmap string (list Byte.byte)
}.

(** [[]byte(s)] *)
Definition bytes (s : string) : list Byte.byte := list_byte_of_string s.

(** Modelled from the spec: [connectionSecret] is not in the sources.
    After TestConnectionSecret: the secret is named by the connection
    secret reference, lives in the namespace of the resource, is owned by
    the resource, and holds the endpoint and the password. *)
Definition connectionSecret (r : ReplicationGroup) (password : string) : Secret :=
  {| SecretName := ConnectionSecretRef (Spec r);
     SecretNamespace := Namespace (Meta r);
     OwnerReferences :=
       [ {| OwnerAPIVersion := APIVersion; OwnerKind := ReplicationGroupKind;
            OwnerName := Name (Meta r); OwnerUID := UID (Meta r);
            Controller := None; BlockOwnerDeletion := None |} ];
     SecretData :=
       <[ResourceCredentialsSecretEndpointKey := bytes (Endpoint (Status r))]>
         (<[ResourceCredentialsSecretPasswordKey := bytes password]> ∅) |}.

(** Whether the request behind a call fails at the client. *)
Definition failed (c : Client) (call : Call) : bool :=
  let isFailure {A} (rsp : Response A) : bool :=
    match rsp with
    | Failure _ => true
    | Data _ => false
    end in
  match call with
  | CreateReplicationGroup id => isFailure (CreateReplicationGroupRequest c id)
  | DescribeReplicationGroups id => isFailure (DescribeReplicationGroupsRequest c id)
  | DescribeCacheClusters id => isFailure (DescribeCacheClustersRequest c id)
  | ModifyReplicationGroup id => isFailure (ModifyReplicationGroupRequest c id)
  | DeleteReplicationGroup id => isFailure (DeleteReplicationGroupRequest c id)
  end.

(** ** The fixtures of the unit tests *)
Module fixtures.

Definition namespace : string := "coolNamespace".
Definition name : string := "coolGroup".
Definition uid : string := "definitely-a-uuid".
Definition id : string := NamePrefix ++ "-efdd8494195d7940".

Definition cacheNodeType : string := "n1.super.cool".
Definition authToken : string := "coolToken".
Definition autoFailoverEnabled : bool := true.
Definition cacheParameterGroupName : string := "coolParamGroup".
Definition engineVersion : string := "5.0.0".
Definition port : Z := 6379.
Definition host : string := "172.16.0.1".
Definition maintenanceWindow : string := "tomorrow".
Definition snapshotRetentionLimit : Z := 1.
Definition snapshotWindow : string := "thedayaftertomorrow".
Definition transitEncryptionEnabled : bool := true.
Definition cacheClusterID : string := id ++ "-0001".
Definition providerName : string := "cool-aws".
Definition connectionSecretName : string := "cool-connection-secret".

Definition errorBoom : error := ErrOther "boom".

Definition meta : ObjectMeta :=
  {| Namespace := namespace; Name := name; UID := uid; Finalizers := [];
     DeletionTimestamp := None |}.

Definition replicationGroupModifier : Type := ReplicationGroup -> ReplicationGroup.

Definition withConditions (c : list Condition) : replicationGroupModifier :=
  mapConditions (fun _ => c).
Definition withState (s : string) : replicationGroupModifier := setState s.
Definition withFinalizers (f : list string) : replicationGroupModifier :=
  setFinalizers f.
Definition withGroupName (n : string) : replicationGroupModifier := setGroupName n.
Definition withMemberClusters (members : list string) : replicationGroupModifier :=
  setMemberClusters members.

Definition withEndpoint (e : string) : replicationGroupModifier :=
  fun r => setEndpoint e (Port (Status r)) r.
Definition withPort (p : Z) : replicationGroupModifier :=
  fun r => setEndpoint (Endpoint (Status r)) p r.

Definition withSpec (f : ReplicationGroupSpec -> ReplicationGroupSpec)
  : replicationGroupModifier :=
  fun r => {| Meta := Meta r; Spec := f (Spec r); Status := Status r |}.

Definition withReclaimPolicy (p : string) : replicationGroupModifier :=
  withSpec (fun s =>
    {| AutomaticFailoverEnabled := AutomaticFailoverEnabled s;
       CacheNodeType := CacheNodeType s;
       CacheParameterGroupName := CacheParameterGroupName s;
       EngineVersion := EngineVersion s;
       PreferredMaintenanceWindow := PreferredMaintenanceWindow s;
       SnapshotRetentionLimit := SnapshotRetentionLimit s;
       SnapshotWindow := SnapshotWindow s;
       TransitEncryptionEnabled := TransitEncryptionEnabled s;
       AuthEnabled := AuthEnabled s;
       ProviderRef := ProviderRef s;
       ConnectionSecretRef := ConnectionSecretRef s;
       ReclaimPolicy := p |}).

Definition withAuth : replicationGroupModifier :=
  withSpec (fun s =>
    {| AutomaticFailoverEnabled := AutomaticFailoverEnabled s;
       CacheNodeType := CacheNodeType s;
       CacheParameterGroupName := CacheParameterGroupName s;
       EngineVersion := EngineVersion s;
       PreferredMaintenanceWindow := PreferredMaintenanceWindow s;
       SnapshotRetentionLimit := SnapshotRetentionLimit s;
       SnapshotWindow := SnapshotWindow s;
       TransitEncryptionEnabled := TransitEncryptionEnabled s;
       AuthEnabled := true;
       ProviderRef := ProviderRef s;
       ConnectionSecretRef := ConnectionSecretRef s;
       ReclaimPolicy := ReclaimPolicy s |}).

Definition replicationGroup (rm : list replicationGroupModifier) : ReplicationGroup :=
  let r := {| Meta := meta;
              Spec := {| AutomaticFailoverEnabled := autoFailoverEnabled;
                         CacheNodeType := cacheNodeType;
                         CacheParameterGroupName := cacheParameterGroupName;
                         EngineVersion := engineVersion;
                         PreferredMaintenanceWindow := maintenanceWindow;
                         SnapshotRetentionLimit := snapshotRetentionLimit;
                         SnapshotWindow := snapshotWindow;
                         TransitEncryptionEnabled := transitEncryptionEnabled;
                         AuthEnabled := false;
                         ProviderRef := providerName;
                         ConnectionSecretRef := connectionSecretName;
                         ReclaimPolicy := "" |};
              Status := {| Conditions := []; State := ""; GroupName := "";
                           ProviderID := ""; Endpoint := ""; Port := 0;
                           ClusterEnabled := false; MemberClusters := [] |} |} in
  foldl (fun r m => m r) r rm.

(** [fake.MockClient]: a mock that a test does not set is a nil function,
    which the test must not reach; here it answers with an error of its
    own, and the replayed cases list the requests that were sent. *)
Definition unset {A} : string -> Response A :=
  fun _ => Failure (ErrOther "nil mock").

Definition MockClient
    (create : option (Response unit))
    (describeGroups : option (Response (list elasticache.ReplicationGroup)))
    (describeClusters : option (Response (list elasticache.CacheCluster)))
    (modify_ : option (Response unit))
    (delete_ : option (Response unit)) : elastiCache :=
  let mock {A} (o : option (Response A)) : string -> Response A :=
    match o with
    | Some rsp => fun _ => rsp
    | None => unset
    end in
  {| client := {| CreateReplicationGroupRequest := mock create;
                  DescribeReplicationGroupsRequest := mock describeGroups;
                  DescribeCacheClustersRequest := mock describeClusters;
                  ModifyReplicationGroupRequest := mock modify_;
                  DeleteReplicationGroupRequest := mock delete_ |} |}.

(** The replication groups and cache clusters that the mocks of TestSync
    describe. *)
Definition groupWithStatus (status : string) : elasticache.ReplicationGroup :=
  {| elasticache.Status := Some status; elasticache.MemberClusters := [];
     elasticache.AutomaticFailover := ""; elasticache.CacheNodeType := None;
     elasticache.SnapshotRetentionLimit := None;
     elasticache.SnapshotWindow := None;
     elasticache.ConfigurationEndpoint := None |}.

Definition availableGroup (automaticFailover : string) : elasticache.ReplicationGroup :=
  {| elasticache.Status := Some StatusAvailable;
     elasticache.MemberClusters := [cacheClusterID];
     elasticache.AutomaticFailover := automaticFailover;
     elasticache.CacheNodeType := Some cacheNodeType;
     elasticache.SnapshotRetentionLimit := Some snapshotRetentionLimit;
     elasticache.SnapshotWindow := Some snapshotWindow;
     elasticache.ConfigurationEndpoint :=
       Some {| elasticache.Address := Some host;
               elasticache.EndpointPort := Some port |} |}.

Definition bareAvailableGroup : elasticache.ReplicationGroup :=
  {| elasticache.Status := Some StatusAvailable;
     elasticache.MemberClusters := [cacheClusterID];
     elasticache.AutomaticFailover := ""; elasticache.CacheNodeType := None;
     elasticache.SnapshotRetentionLimit := None;
     elasticache.SnapshotWindow := None;
     elasticache.ConfigurationEndpoint := None |}.

Definition cacheCluster (window : string) : elasticache.CacheCluster :=
  {| elasticache.EngineVersion := Some engineVersion;
     elasticache.PreferredMaintenanceWindow := Some window |}.

(** Modelled from the spec: [elasticacheclient.ReplicationGroupNeedsUpdate]
    is not in the sources.  The group needs an update when one of the fields
    that TestSync marks as needing an update differs from the spec. *)
Definition ReplicationGroupNeedsUpdate (kube : ReplicationGroup)
    (rg : elasticache.ReplicationGroup) (ccList : list elasticache.CacheCluster)
  : bool :=
  negb (bool_decide
          (AutomaticFailoverEnabled (Spec kube)
           = bool_decide (elasticache.AutomaticFailover rg
                          = elasticache.AutomaticFailoverStatusEnabled)))
  || negb (bool_decide (CacheNodeType (Spec kube)
                        = aws.StringValue (elasticache.CacheNodeType rg)))
  || negb (bool_decide (SnapshotRetentionLimit (Spec kube)
                        = default 0%Z (elasticache.SnapshotRetentionLimit rg)))
  || negb (bool_decide (SnapshotWindow (Spec kube)
                        = aws.StringValue (elasticache.SnapshotWindow rg)))
  || existsb (fun cc =>
       negb (bool_decide (EngineVersion (Spec kube)
                          = aws.StringValue (elasticache.EngineVersion cc)))
       || negb (bool_decide (PreferredMaintenanceWindow (Spec kube)
                 = aws.StringValue (elasticache.PreferredMaintenanceWindow cc))))
       ccList.

Definition condition (condType status : string) : Condition :=
  {| Type_ := condType; corev1alpha1.Status := status; Reason := "";
     Message := "" |}.

Definition failure (status reason message : string) : Condition :=
  {| Type_ := Failed; corev1alpha1.Status := status; Reason := reason;
     Message := message |}.

Definition sync := Sync ReplicationGroupNeedsUpdate.

(** What the cases with an available group expect: no requeue. *)
Definition syncedAvailable : ReplicationGroup :=
  replicationGroup
    [ withState StatusAvailable;
      withGroupName name;
      withConditions [ condition Creating ConditionFalse;
                       condition Ready ConditionTrue ];
      withPort port;
      withEndpoint host;
      withMemberClusters [cacheClusterID] ].

Definition creatingGroup : ReplicationGroup :=
  replicationGroup
    [ withGroupName name;
      withConditions [condition Creating ConditionTrue] ].

Definition finalized (policy : string) : ReplicationGroup :=
  replicationGroup [withFinalizers [finalizerName]; withReclaimPolicy policy].

(** The modifiers of the tests that no case above needs. *)
Definition withProviderID (id : string) : replicationGroupModifier :=
  withStatus (fun s =>
    {| Conditions := Conditions s; State := State s;
       GroupName := GroupName s; ProviderID := id;
       Endpoint := Endpoint s; Port := Port s;
       ClusterEnabled := ClusterEnabled s;
       MemberClusters := MemberClusters s |}).

Definition withClusterEnabled : replicationGroupModifier :=
  withStatus (fun s =>
    {| Conditions := Conditions s; State := State s;
       GroupName := GroupName s; ProviderID := ProviderID s;
       Endpoint := Endpoint s; Port := Port s;
       ClusterEnabled := true;
       MemberClusters := MemberClusters s |}).

Definition withDeletionTimestamp (t : Time) : replicationGroupModifier :=
  fun r =>
    {| Meta := {| Namespace := Namespace (Meta r); Name := Name (Meta r);
                  UID := UID (Meta r); Finalizers := Finalizers (Meta r);
                  DeletionTimestamp := Some t |};
       Spec := Spec r; Status := Status r |}.

(** The twelve modifiers by name, and the field each one writes. *)
Inductive Field : Type :=
| FConditions | FState | FFinalizers | FReclaimPolicy | FGroupName
| FProviderID | FEndpoint | FPort | FDeletionTimestamp | FAuthEnabled
| FClusterEnabled | FMemberClusters.

Inductive Modifier : Type :=
| WithConditions (c : list Condition)
| WithState (s : string)
| WithFinalizers (f : list string)
| WithReclaimPolicy (p : string)
| WithGroupName (n : string)
| WithProviderID (id : string)
| WithEndpoint (e : string)
| WithPort (p : Z)
| WithDeletionTimestamp (t : Time)
| WithAuth
| WithClusterEnabled
| WithMemberClusters (members : list string).

Definition modifier (m : Modifier) : replicationGroupModifier :=
  match m with
  | WithConditions c => withConditions c
  | WithState s => withState s
  | WithFinalizers f => withFinalizers f
  | WithReclaimPolicy p => withReclaimPolicy p
  | WithGroupName n => withGroupName n
  | WithProviderID id => withProviderID id
  | WithEndpoint e => withEndpoint e
  | WithPort p => withPort p
  | WithDeletionTimestamp t => withDeletionTimestamp t
  | WithAuth => withAuth
  | WithClusterEnabled => withClusterEnabled
  | WithMemberClusters members => withMemberClusters members
  end.

Definition written (m : Modifier) : Field :=
  match m with
  | WithConditions _ => FConditions
  | WithState _ => FState
  | WithFinalizers _ => FFinalizers
  | WithReclaimPolicy _ => FReclaimPolicy
  | WithGroupName _ => FGroupName
  | WithProviderID _ => FProviderID
  | WithEndpoint _ => FEndpoint
  | WithPort _ => FPort
  | WithDeletionTimestamp _ => FDeletionTimestamp
  | WithAuth => FAuthEnabled
  | WithClusterEnabled => FClusterEnabled
  | WithMemberClusters _ => FMemberClusters
  end.

End fixtures.

End Cache.


(** * Results *)

(** ** httpnamespace: the generated conversions *)
Section HTTPNamespaceFacts.

Import HTTPNamespace.

(** The loop appends one converted tag per tag, in order. *)
Lemma f2loop_fmap (f2 : list svcsdk.Tag) (tags : list Tag) :
  f2loop f2 tags = (f2 ++ (f2elem <$> tags))%list.
Proof.
  revert f2. induction tags as [|t tags IH]; intros f2; simpl.
  - by rewrite app_nil_r.
  - rewrite IH. by rewrite <- app_assoc.
Qed.

Lemma f2elem_fields (t : Tag) :
  svcsdk.Key (f2elem t) = Key t /\ svcsdk.Value (f2elem t) = Value t.
Proof. destruct t as [[k|] [v|]]; done. Qed.

(** C7. For every HTTPNamespace, the create input has the description and the
    name of spec.forProvider (set where they are set, unset where they are
    nil); its tags are unset when the spec has none, and otherwise a list of
    the same length whose i-th tag has the key and the value of the i-th tag
    of the spec, a nil key or value staying unset. *)
Theorem GenerateCreateHttpNamespaceInput_copies (cr : HTTPNamespace) :
  let p := ForProvider (Spec cr) in
  let res := GenerateCreateHttpNamespaceInput cr in
  svcsdk.Description res = Description p /\
  svcsdk.Name res = Name p /\
  match Tags p with
  | None => svcsdk.Tags res = None
  | Some tags =>
      exists f2, svcsdk.Tags res = Some f2 /\
        length f2 = length tags /\
        forall (i : nat) (t : Tag), tags !! i = Some t ->
          exists t', f2 !! i = Some t' /\
            svcsdk.Key t' = Key t /\ svcsdk.Value t' = Value t
  end.
Proof.
  destruct cr as [[[d n tags]]]. cbn zeta. unfold GenerateCreateHttpNamespaceInput.
  cbn [Spec ForProvider Description Name Tags].
  split; [|split].
  - destruct d, n, tags; reflexivity.
  - destruct d, n, tags; reflexivity.
  - destruct tags as [tags|]; [|destruct d, n; reflexivity].
    exists (f2elem <$> tags). split; [|split].
    + rewrite f2loop_fmap. destruct d, n; reflexivity.
    + by rewrite length_fmap.
    + intros i t Hi. exists (f2elem t). split.
      * by rewrite list_lookup_fmap, Hi.
      * apply f2elem_fields.
Qed.

(** The tag of the described namespace, found in its create input. *)
Lemma GenerateCreateHttpNamespaceInput_copies_witness :
  exists f2 t',
    svcsdk.Tags (GenerateCreateHttpNamespaceInput describedNamespace) = Some f2 /\
    f2 !! 0%nat = Some t' /\
    svcsdk.Key t' = Some "team" /\ svcsdk.Value t' = Some "a".
Proof.
  destruct (GenerateCreateHttpNamespaceInput_copies describedNamespace)
    as (_ & _ & f2 & Hf2 & _ & Hi).
  destruct (Hi 0%nat {| Key := Some "team"; Value := Some "a" |} eq_refl)
    as (t' & Ht' & Hk & Hv).
  exists f2, t'. repeat split; assumption.
Defined.

(** C8, as stated, fails: the update input of a described namespace carries
    no description. *)
Lemma GenerateUpdateHttpNamespaceInput_copies_nothing :
  ~ copiesForProvider describedNamespace
      (GenerateUpdateHttpNamespaceInput describedNamespace).
Proof.
  intros H. destruct (H "orders" eq_refl) as (ch & Hch & _). discriminate Hch.
Qed.

(** C8, amended. GenerateUpdateHttpNamespaceInput returns an update input
    none of whose fields is set, whatever spec.forProvider holds: two
    resources always get the same update input. *)
Theorem GenerateUpdateHttpNamespaceInput_empty (cr cr' : HTTPNamespace) :
  let res := GenerateUpdateHttpNamespaceInput cr in
  svcsdk.Id res = None /\ svcsdk.Namespace res = None /\
  svcsdk.UpdaterRequestId res = None /\
  GenerateUpdateHttpNamespaceInput cr' = res.
Proof. repeat split. Qed.

(** C10. IsNotFound is true exactly of the errors that implement
    awserr.Error with the code UNKNOWN; it is false of the nil error and of
    every error that carries one of the not-found codes of the service. *)
Theorem IsNotFound_only_UNKNOWN :
  (forall err : error,
     IsNotFound err = true <-> exists message, err = ErrAws "UNKNOWN" message) /\
  IsNotFound ErrNil = false /\
  Forall (fun code => forall message, IsNotFound (ErrAws code message) = false)
         notFoundCodes.
Proof.
  split; [|split].
  - intros [|code message|text]; simpl; split.
    + discriminate.
    + intros [m Hm]. discriminate Hm.
    + intros Hc. apply bool_decide_eq_true in Hc. subst. by exists message.
    + intros [m Hm]. injection Hm as -> _. by apply bool_decide_eq_true.
    + discriminate.
    + intros [m Hm]. discriminate Hm.
  - reflexivity.
  - unfold notFoundCodes. repeat constructor.
Qed.

(** An error with the code UNKNOWN is a not-found error. *)
Lemma IsNotFound_only_UNKNOWN_witness :
  IsNotFound (ErrAws "UNKNOWN" "no such namespace") = true.
Proof.
  destruct IsNotFound_only_UNKNOWN as [Hiff _].
  apply Hiff. by exists "no such namespace".
Defined.

End HTTPNamespaceFacts.

(** ** crossplane-runtime: setting a condition *)
Section ConditionFacts.

Import xpv1.

Lemma Equal_refl (c : Condition) : Equal c c = true.
Proof. unfold Equal. by rewrite !bool_decide_eq_true_2. Qed.

Lemma Equal_fields (c d : Condition) :
  Equal c d = true ->
  Type_ c = Type_ d /\ Status c = Status d /\ Reason c = Reason d /\
  Message c = Message d.
Proof.
  unfold Equal. rewrite !andb_true_iff, !bool_decide_eq_true. tauto.
Qed.




End ConditionFacts.

(** ** integrationresponse: the hooks *)
Section IntegrationResponseFacts.

Import IntegrationResponse.

(** C5. preObserve, preCreate and preDelete return a nil error and set ApiId
    and IntegrationId of the SDK input from spec.forProvider; preObserve and
    preDelete also set IntegrationResponseId from the external-name
    annotation of the resource: to its value, and to nil when the annotation
    is missing or empty; preCreate changes no other field of its input
    (which has no IntegrationResponseId), and the inputs of preObserve and
    preDelete have no other field. *)
Theorem pre_hooks_fill_identifiers (cr : IntegrationResponse)
    (get : svcsdk.GetIntegrationResponseInput)
    (create : svcsdk.CreateIntegrationResponseInput)
    (del : svcsdk.DeleteIntegrationResponseInput) :
  let p := ForProvider (Spec cr) in
  let name := default "" (Annotations cr !! "crossplane.io/external-name") in
  let id := if bool_decide (name = "") then None else Some name in
  preObserve cr get =
    ({| svcsdk.GetApiId := APIID p; svcsdk.GetIntegrationId := IntegrationID p;
        svcsdk.GetIntegrationResponseId := id |}, ErrNil) /\
  preCreate cr create =
    ({| svcsdk.ApiId := APIID p;
        svcsdk.ContentHandlingStrategy := svcsdk.ContentHandlingStrategy create;
        svcsdk.IntegrationId := IntegrationID p;
        svcsdk.IntegrationResponseKey := svcsdk.IntegrationResponseKey create;
        svcsdk.ResponseParameters := svcsdk.ResponseParameters create;
        svcsdk.ResponseTemplates := svcsdk.ResponseTemplates create;
        svcsdk.TemplateSelectionExpression :=
          svcsdk.TemplateSelectionExpression create |}, ErrNil) /\
  preDelete cr del =
    ({| svcsdk.DelApiId := APIID p; svcsdk.DelIntegrationId := IntegrationID p;
        svcsdk.DelIntegrationResponseId := id |}, (false, ErrNil)).
Proof. repeat split. Qed.


(** X15. The hooks fit together: what postCreate records as the external
    name (the IntegrationResponseId of the response, over any earlier
    external name) is what preObserve and preDelete ask the API for
    afterwards; when the response has no id, or an empty one, they ask
    with a nil IntegrationResponseId. *)
Lemma preObserve_after_postCreate (cr : IntegrationResponse)
    (created : svcsdk.CreateIntegrationResponseOutput)
    (cre : managed.ExternalCreation)
    (get : svcsdk.GetIntegrationResponseInput)
    (del : svcsdk.DeleteIntegrationResponseInput) :
  let cr' := (postCreate cr created cre ErrNil).1 in
  let id := match svcsdk.OutIntegrationResponseId created with
            | Some v => if bool_decide (v = "") then None else Some v
            | None => None
            end in
  svcsdk.GetIntegrationResponseId (preObserve cr' get).1 = id /\
  svcsdk.DelIntegrationResponseId (preDelete cr' del).1 = id.
Proof.
  cbn zeta. unfold preObserve, preDelete, postCreate. simpl.
  unfold meta.GetExternalName, meta.SetExternalName.
  rewrite lookup_insert_eq. by destruct (svcsdk.OutIntegrationResponseId created).
Qed.

(** A resource without an external name is asked for with a nil id, one
    with an external name with that name. *)
Example preObserve_without_external_name :
  svcsdk.GetIntegrationResponseId (preObserve freshResponse emptyGetInput).1 = None.
Proof. reflexivity. Qed.

Example preObserve_with_external_name :
  svcsdk.GetIntegrationResponseId (preObserve observedResponse emptyGetInput).1
  = Some "abc".
Proof. reflexivity. Qed.


End IntegrationResponseFacts.

(** ** The ResolverEndpoint schema: what an accepted object looks like *)
Section CRDFacts.

Import CRD.

Variable formatOK : string -> JSON -> bool.

(** *** One level of each pass, on the members of an object *)

Lemma prune_object (isRoot : bool) (s : option Schema) (f : list (string * JSON)) :
  prune isRoot s (JObject f) = JObject (omap (pruneMember isRoot s) f).
Proof.
  simpl. f_equal. induction f as [|[k v] f IH]; [done|].
  simpl. unfold pruneMember at 1. simpl.
  destruct (isRoot && metaField k); [by rewrite IH|].
  destruct (s ≫= _); by rewrite IH.
Qed.

Lemma dropNulls_object (s : Schema) (f : list (string * JSON)) :
  dropNulls s (JObject f) = JObject (omap (dropNullsMember s) f).
Proof.
  simpl. f_equal. induction f as [|[k v] f IH]; [done|].
  simpl. unfold dropNullsMember at 1. simpl.
  destruct (memberSchema s k); [|by rewrite IH].
  destruct (isNull v && _); by rewrite IH.
Qed.

Lemma Default_object (s : Schema) (f : list (string * JSON)) :
  Default s (JObject f)
  = JObject (defaultMember s <$> (f ++ missingDefaults (properties s) f)%list).
Proof.
  destruct s as [t props req its addl e d fm]. simpl. f_equal.
  apply list_fmap_ext. intros _ [k v] _. unfold defaultMember, memberSchema.
  simpl. f_equal.
  induction props as [|[k' p] props IH]; [done|].
  simpl. by destruct (bool_decide (k' = k)).
Qed.

(** [Default] gives an object only for an object. *)
Lemma Default_is_object (s : Schema) (x : JSON) (f' : list (string * JSON)) :
  Default s x = JObject f' -> exists f, x = JObject f.
Proof.
  destruct s as [t props req its addl e d fm], x; simpl; try discriminate.
  - destruct its; discriminate.
  - eauto.
Qed.



Lemma validate_object (s : Schema) (f : list (string * JSON)) :
  validate formatOK s (JObject f)
  = typeOK (type_ s) (JObject f) && enumOK (enum s) (JObject f)
    && (bool_decide (format s = "") || formatOK (format s) (JObject f))
    && (forallb (fun k => bool_decide (is_Some (assoc k f))) (required s)
        && forallb (validMember formatOK s) f).
Proof.
  simpl. do 2 f_equal. induction f as [|[k v] f IH]; [done|].
  simpl. unfold validMember at 1. simpl. by rewrite IH.
Qed.

(** *** Looking a key up after a pass *)

Lemma assoc_omap_Some {A B} (g : string * A -> option (string * B)) (h : A -> B)
    (k : string) (f : list (string * A)) (v : A) :
  (forall kv, kv.1 <> k -> forall kv', g kv = Some kv' -> kv'.1 <> k) ->
  (forall a, assoc k f = Some a -> g (k, a) = Some (k, h a)) ->
  assoc k f = Some v ->
  assoc k (omap g f) = Some (h v).
Proof.
  intros Hother. induction f as [|[k' a] f IH]; intros Hk Hf; [done|].
  simpl in Hf, Hk. simpl. case_bool_decide as Hkk.
  - subst k'. injection Hf as ->. rewrite (Hk v eq_refl). simpl.
    by rewrite bool_decide_eq_true_2.
  - specialize (IH Hk Hf). destruct (g (k', a)) as [[k'' b]|] eqn:Hg; [|done].
    simpl. rewrite bool_decide_eq_false_2; [done|].
    apply (Hother (k', a) Hkk _ Hg).
Qed.

Lemma assoc_omap_None {A B} (g : string * A -> option (string * B))
    (k : string) (f : list (string * A)) :
  (forall kv, kv.1 <> k -> forall kv', g kv = Some kv' -> kv'.1 <> k) ->
  assoc k f = None ->
  assoc k (omap g f) = None.
Proof.
  intros Hother. induction f as [|[k' a] f IH]; intros Hf; [done|].
  simpl in Hf. simpl. case_bool_decide as Hkk; [done|].
  specialize (IH Hf). destruct (g (k', a)) as [[k'' b]|] eqn:Hg; [|done].
  simpl. rewrite bool_decide_eq_false_2; [done|].
  apply (Hother (k', a) Hkk _ Hg).
Qed.

Lemma pruneMember_key (isRoot : bool) (s : option Schema) (kv kv' : string * JSON) :
  pruneMember isRoot s kv = Some kv' -> kv'.1 = kv.1.
Proof.
  unfold pruneMember. destruct (isRoot && _); [by intros [= <-]|].
  destruct (s ≫= _); [by intros [= <-]|done].
Qed.

Lemma dropNullsMember_key (s : Schema) (kv kv' : string * JSON) :
  dropNullsMember s kv = Some kv' -> kv'.1 = kv.1.
Proof.
  unfold dropNullsMember. destruct (memberSchema s kv.1); [|by intros [= <-]].
  destruct (isNull kv.2 && _); [done|by intros [= <-]].
Qed.

Lemma assoc_fmap_defaultMember (s : Schema) (k : string) (f : list (string * JSON)) :
  assoc k (defaultMember s <$> f)
  = (fun v => (defaultMember s (k, v)).2) <$> assoc k f.
Proof.
  induction f as [|[k' v] f IH]; [done|].
  rewrite fmap_cons. simpl. case_bool_decide; [by subst|done].
Qed.

Lemma assoc_app {A} (k : string) (f g : list (string * A)) :
  assoc k (f ++ g)%list = match assoc k f with
                          | Some v => Some v
                          | None => assoc k g
                          end.
Proof.
  induction f as [|[k' v] f IH]; [done|]. simpl. by case_bool_decide.
Qed.

Lemma assoc_missingDefaults (props : list (string * Schema)) (k : string)
    (f : list (string * JSON)) (p : Schema) (d : JSON) :
  assoc k props = Some p -> default_ p = Some d -> assoc k f = None ->
  assoc k (missingDefaults props f) = Some d.
Proof.
  intros Hp Hd Hf. unfold missingDefaults.
  induction props as [|[k' q] props IH]; [done|].
  simpl in Hp. simpl. case_bool_decide as Hkk.
  - subst k'. injection Hp as ->. rewrite Hf, Hd.
    simpl. by rewrite bool_decide_eq_true_2.
  - specialize (IH Hp).
    destruct (assoc k' f), (default_ q); simpl; auto.
    by rewrite bool_decide_eq_false_2.
Qed.

Lemma missingDefaults_nil (props : list (string * Schema)) (f : list (string * JSON)) :
  Forall (fun kp => default_ kp.2 = None) props -> missingDefaults props f = [].
Proof.
  unfold missingDefaults. induction 1 as [|[k p] props Hp _ IH]; [done|].
  simpl in *. rewrite Hp. by destruct (assoc k f).
Qed.

Lemma forallb_assoc {A} (P : string * A -> bool) (k : string)
    (f : list (string * A)) (v : A) :
  forallb P f = true -> assoc k f = Some v -> P (k, v) = true.
Proof.
  induction f as [|[k' a] f IH]; [done|]. simpl.
  intros [Ha Hf]%andb_true_iff. case_bool_decide; [|by auto].
  subst k'. by intros [= <-].
Qed.

(** *** What validation says about one object *)

Lemma validate_type_object (s : Schema) (x : JSON) :
  type_ s = "object" -> validate formatOK s x = true -> exists f, x = JObject f.
Proof.
  intros Ht Hv. destruct x; simpl in Hv; rewrite Ht in Hv; try discriminate Hv.
  eauto.
Qed.

Lemma validate_required (s : Schema) (f : list (string * JSON)) (k : string) :
  validate formatOK s (JObject f) = true -> In k (required s) ->
  is_Some (assoc k f).
Proof.
  rewrite validate_object. intros Hv Hk.
  apply andb_true_iff in Hv as [_ Hv]. apply andb_true_iff in Hv as [Hv _].
  rewrite forallb_forall in Hv. specialize (Hv k Hk).
  by apply bool_decide_eq_true in Hv.
Qed.

Lemma validate_member (s p : Schema) (f : list (string * JSON)) (k : string)
    (v : JSON) :
  validate formatOK s (JObject f) = true -> memberSchema s k = Some p ->
  assoc k f = Some v -> validate formatOK p v = true.
Proof.
  rewrite validate_object. intros Hv Hp Hk.
  apply andb_true_iff in Hv as [_ Hv]. apply andb_true_iff in Hv as [_ Hv].
  pose proof (forallb_assoc _ _ _ _ Hv Hk) as Hm.
  unfold validMember in Hm. simpl in Hm. by rewrite Hp in Hm.
Qed.

(** A value that the schema of deletionPolicy accepts is one of its two
    strings. *)
Lemma validate_deletionPolicy (v : JSON) :
  validate formatOK deletionPolicy v = true ->
  v = JString "Orphan" \/ v = JString "Delete".
Proof.
  destruct v as [| | | |s| |]; try discriminate.
  unfold validate, deletionPolicy, type_, enum, enumOK, typeOK. simpl.
  rewrite !andb_true_iff, !orb_true_iff, !bool_decide_eq_true.
  intros [[[->|[->|[=]]] _] _]; auto.
Qed.

(** *** Facts about the schema itself *)

Lemma root_spec : memberSchema openAPIV3Schema "spec" = Some spec.
Proof. reflexivity. Qed.

Lemma spec_forProvider : memberSchema spec "forProvider" = Some forProvider.
Proof. reflexivity. Qed.

Lemma spec_deletionPolicy : memberSchema spec "deletionPolicy" = Some deletionPolicy.
Proof. reflexivity. Qed.

Lemma root_no_default :
  Forall (fun kp : string * Schema => default_ kp.2 = None)
         (properties openAPIV3Schema).
Proof. repeat constructor. Qed.

(** *** The members of a stored object come from the defaulted body *)

Lemma JObject_inj (f g : list (string * JSON)) : JObject f = JObject g -> f = g.
Proof. by intros [= ->]. Qed.

Lemma stored_spec (x : JSON) (f3 spf3 : list (string * JSON)) :
  Default openAPIV3Schema x = JObject f3 ->
  assoc "spec" f3 = Some (JObject spf3) ->
  exists f2 spf2,
    x = JObject f2 /\ assoc "spec" f2 = Some (JObject spf2) /\
    spf3 = defaultMember spec <$> (spf2 ++ missingDefaults (properties spec) spf2)%list.
Proof.
  intros Hx Hsp. destruct (Default_is_object _ _ _ Hx) as [f2 ->].
  rewrite Default_object in Hx. apply JObject_inj in Hx. subst f3.
  rewrite (missingDefaults_nil _ _ root_no_default), app_nil_r in Hsp.
  rewrite assoc_fmap_defaultMember in Hsp.
  destruct (assoc "spec" f2) as [sp2|] eqn:Hsp2; [|done].
  change (Some (defaultMember openAPIV3Schema ("spec", sp2)).2
          = Some (JObject spf3)) in Hsp.
  apply (inj Some) in Hsp.
  unfold defaultMember in Hsp. cbn [fst snd] in Hsp. rewrite root_spec in Hsp.
  change (orDefault spec sp2) with (if isNull sp2 then sp2 else sp2) in Hsp.
  assert (Hsp' : Default spec sp2 = JObject spf3) by (by destruct (isNull sp2)).
  destruct (Default_is_object _ _ _ Hsp') as [spf2 ->].
  rewrite Default_object in Hsp'. apply JObject_inj in Hsp'. subst spf3.
  by exists f2, spf2.
Qed.

Lemma body_spec (body : JSON) (bsp : list (string * JSON)) :
  member "spec" body = Some (JObject bsp) ->
  assoc "deletionPolicy" bsp = None ->
  exists f2 spf2,
    dropNulls openAPIV3Schema (prune true (Some openAPIV3Schema) body) = JObject f2 /\
    assoc "spec" f2 = Some (JObject spf2) /\
    assoc "deletionPolicy" spf2 = None.
Proof.
  intros Hb Hdp. destruct body as [| | | | | |bf]; try discriminate Hb.
  simpl in Hb. rewrite prune_object, dropNulls_object.
  eexists _, (omap (dropNullsMember spec) (omap (pruneMember false (Some spec)) bsp)).
  split; [reflexivity|]. split.
  - rewrite <- dropNulls_object, <- prune_object.
    apply (assoc_omap_Some (dropNullsMember openAPIV3Schema) (dropNulls spec)).
    + intros kv Hne kv' Hkv. by rewrite (dropNullsMember_key _ _ _ Hkv).
    + intros a Ha.
      rewrite (assoc_omap_Some (pruneMember true (Some openAPIV3Schema))
                 (prune false (Some spec)) "spec" bf (JObject bsp)) in Ha.
      * injection Ha as <-. reflexivity.
      * intros kv Hne kv' Hkv. by rewrite (pruneMember_key _ _ _ _ Hkv).
      * reflexivity.
      * exact Hb.
    + apply (assoc_omap_Some (pruneMember true (Some openAPIV3Schema))
               (prune false (Some spec))); [|reflexivity|exact Hb].
      intros kv Hne kv' Hkv. by rewrite (pruneMember_key _ _ _ _ Hkv).
  - apply assoc_omap_None.
    { intros kv Hne kv' Hkv. by rewrite (dropNullsMember_key _ _ _ Hkv). }
    apply assoc_omap_None; [|exact Hdp].
    intros kv Hne kv' Hkv. by rewrite (pruneMember_key _ _ _ _ Hkv).
Qed.

(** C9. Every object that the schema accepts is stored with a spec whose
    forProvider holds direction, ipAddresses and region, and whose
    deletionPolicy is Orphan or Delete; it is Delete when the spec of the
    request has no deletionPolicy. *)
Theorem accepted_ResolverEndpoint (body stored : JSON) :
  accept formatOK openAPIV3Schema body = Some stored ->
  exists sp fp dp,
    member "spec" stored = Some sp /\
    member "forProvider" sp = Some fp /\
    is_Some (member "direction" fp) /\
    is_Some (member "ipAddresses" fp) /\
    is_Some (member "region" fp) /\
    member "deletionPolicy" sp = Some (JString dp) /\
    (dp = "Orphan" \/ dp = "Delete") /\
    (forall bsp, member "spec" body = Some (JObject bsp) ->
       assoc "deletionPolicy" bsp = None -> dp = "Delete").
Proof.
  unfold accept. intros Hacc.
  destruct (validate _ _ _) eqn:Hv; [|discriminate Hacc].
  apply (inj Some) in Hacc.
  remember (dropNulls openAPIV3Schema (prune true (Some openAPIV3Schema) body))
    as x2 eqn:Hx2.
  (* the stored object and its spec *)
  destruct (validate_type_object openAPIV3Schema _ eq_refl Hv) as [f3 Hf3].
  rewrite Hf3 in Hv.
  destruct (validate_required _ _ "spec" Hv) as [sp3 Hsp3]; [by left|].
  pose proof (validate_member _ _ _ _ _ Hv root_spec Hsp3) as Hvsp.
  destruct (validate_type_object spec _ eq_refl Hvsp) as [spf3 ->].
  (* forProvider and its required members *)
  destruct (validate_required _ _ "forProvider" Hvsp) as [fp3 Hfp3]; [by left|].
  pose proof (validate_member _ _ _ _ _ Hvsp spec_forProvider Hfp3) as Hvfp.
  destruct (validate_type_object forProvider _ eq_refl Hvfp) as [fpf3 ->].
  pose proof (validate_required _ _ "direction" Hvfp) as Hdir.
  pose proof (validate_required _ _ "ipAddresses" Hvfp) as Hips.
  pose proof (validate_required _ _ "region" Hvfp) as Hreg.
  (* where the members of the spec come from *)
  destruct (stored_spec x2 f3 spf3) as (f2 & spf2 & Hx2' & Hsp2 & Hspf3);
    [congruence|exact Hsp3|].
  assert (Hdp : exists v, assoc "deletionPolicy" spf3 = Some v /\
            (assoc "deletionPolicy" spf2 = None -> v = JString "Delete")).
  { rewrite Hspf3, assoc_fmap_defaultMember, assoc_app.
    destruct (assoc "deletionPolicy" spf2) as [v|] eqn:Hv2.
    - eexists. split; [reflexivity|discriminate].
    - rewrite (assoc_missingDefaults _ _ _ deletionPolicy (JString "Delete"));
        [|reflexivity..|exact Hv2].
      eexists. split; [reflexivity|]. intros _. reflexivity. }
  destruct Hdp as (dpv & Hdpv & Hdefault).
  pose proof (validate_member _ _ _ _ _ Hvsp spec_deletionPolicy Hdpv) as Hvdp.
  assert (Hdp : exists dp, dpv = JString dp /\ (dp = "Orphan" \/ dp = "Delete")).
  { destruct (validate_deletionPolicy _ Hvdp) as [->| ->]; eauto. }
  destruct Hdp as (dp & -> & Hdp).
  exists (JObject spf3), (JObject fpf3), dp. rewrite <- Hacc, Hf3.
  repeat split.
  - exact Hsp3.
  - exact Hfp3.
  - apply Hdir. simpl. auto.
  - apply Hips. simpl. auto.
  - apply Hreg. simpl. auto.
  - exact Hdpv.
  - exact Hdp.
  - intros bsp Hbsp Hnone.
    destruct (body_spec body bsp Hbsp Hnone) as (f2' & spf2' & Hb & Hsp2' & Hdp2).
    rewrite <- Hx2, Hx2' in Hb. apply JObject_inj in Hb. subst f2'.
    rewrite Hsp2 in Hsp2'. apply (inj Some) in Hsp2'. apply JObject_inj in Hsp2'.
    subst spf2'. specialize (Hdefault Hdp2). by injection Hdefault.
Qed.

End CRDFacts.

(** A request that names no deletion policy is stored with Delete. *)
Lemma accepted_ResolverEndpoint_witness :
  CRD.accept (fun _ _ => true) CRD.openAPIV3Schema CRD.inboundEndpoint
    = Some CRD.inboundEndpointStored /\
  exists sp, CRD.member "spec" CRD.inboundEndpointStored = Some sp /\
    CRD.member "deletionPolicy" sp = Some (CRD.JString "Delete").
Proof.
  split; [reflexivity|].
  destruct (accepted_ResolverEndpoint (fun _ _ => true) CRD.inboundEndpoint
              CRD.inboundEndpointStored eq_refl)
    as (sp & fp & dp & Hsp & _ & _ & _ & _ & Hdp & _ & Hdefault).
  exists sp. split; [exact Hsp|].
  rewrite Hdp. do 2 f_equal. eapply Hdefault; reflexivity.
Defined.

(** The schema turns down a request without a region, and one whose
    deletion policy is not in the enumeration. *)
Example rejects_missing_region :
  CRD.accept (fun _ _ => true) CRD.openAPIV3Schema CRD.endpointWithoutRegion = None.
Proof. reflexivity. Qed.

Example rejects_unknown_deletionPolicy :
  CRD.accept (fun _ _ => true) CRD.openAPIV3Schema CRD.endpointRetained = None.
Proof. reflexivity. Qed.

(** ** cache: the unit tests, replayed *)
Section CacheTests.

Import corev1alpha1 Cache Cache.fixtures.

(** The constant [id] of the tests is what [NewReplicationGroupID] gives for
    their UID: the FNV-64a hash of [uid] is efdd8494195d7940. *)
Example id_is_NewReplicationGroupID :
  fnv.Sum64a uid = 0xefdd8494195d7940%Z /\
  NewReplicationGroupID (replicationGroup []) = id.
Proof. split; vm_compute; reflexivity. Qed.

(** *** TestCreate *)

Example TestCreate_SuccessfulCreate :
  run (Create (MockClient (Some (Data tt)) None None None None))
      (replicationGroup [withAuth])
  = Some (true,
          {| resource := replicationGroup
               [ withAuth;
                 withConditions [condition Creating ConditionTrue];
                 withFinalizers [finalizerName];
                 withGroupName id ];
             sent := [CreateReplicationGroup id] |}).
Proof. vm_compute. reflexivity. Qed.

Example TestCreate_FailedCreate :
  run (Create (MockClient (Some (Failure errorBoom)) None None None None))
      (replicationGroup [])
  = Some (true,
          {| resource := replicationGroup
               [ withConditions
                   [failure ConditionTrue reasonCreatingResource "boom"] ];
             sent := [CreateReplicationGroup id] |}).
Proof. vm_compute. reflexivity. Qed.

(** *** TestSync *)

Example TestSync_SuccessfulSyncWhileGroupCreating :
  run (sync (MockClient None (Some (Data [groupWithStatus StatusCreating]))
               None None None))
      (replicationGroup
         [ withGroupName name;
           withConditions [failure ConditionTrue reasonCreatingResource "boom"] ])
  = Some (true,
          {| resource := replicationGroup
               [ withState StatusCreating;
                 withGroupName name;
                 withConditions
                   [ failure ConditionFalse reasonCreatingResource "boom";
                     condition Creating ConditionTrue ] ];
             sent := [DescribeReplicationGroups name] |}).
Proof. vm_compute. reflexivity. Qed.

Example TestSync_SuccessfulSyncWhileGroupDeleting :
  run (sync (MockClient None (Some (Data [groupWithStatus StatusDeleting]))
               None None None))
      (replicationGroup
         [ withGroupName name;
           withConditions [condition Deleting ConditionTrue] ])
  = Some (false,
          {| resource := replicationGroup
               [ withGroupName name;
                 withState StatusDeleting;
                 withConditions [condition Deleting ConditionTrue] ];
             sent := [DescribeReplicationGroups name] |}).
Proof. vm_compute. reflexivity. Qed.

Example TestSync_SuccessfulSyncWhileGroupModifying :
  run (sync (MockClient None (Some (Data [groupWithStatus StatusModifying]))
               None None None))
      (replicationGroup
         [ withGroupName name;
           withConditions [condition Ready ConditionTrue] ])
  = Some (true,
          {| resource := replicationGroup
               [ withState StatusModifying;
                 withGroupName name;
                 withConditions [condition Ready ConditionFalse] ];
             sent := [DescribeReplicationGroups name] |}).
Proof. vm_compute. reflexivity. Qed.

Example TestSync_SuccessfulSyncWhileGroupAvailableAndDoesNotNeedUpdate :
  run (sync (MockClient None
               (Some (Data [availableGroup elasticache.AutomaticFailoverStatusEnabled]))
               (Some (Data [cacheCluster maintenanceWindow]))
               None None))
      creatingGroup
  = Some (false,
          {| resource := syncedAvailable;
             sent := [ DescribeReplicationGroups name;
                       DescribeCacheClusters cacheClusterID ] |}).
Proof. vm_compute. reflexivity. Qed.

Example TestSync_SuccessfulSyncWhileGroupAvailableAndNeedsUpdate :
  run (sync (MockClient None
               (Some (Data [availableGroup elasticache.AutomaticFailoverStatusDisabled]))
               (Some (Data [cacheCluster maintenanceWindow]))
               (Some (Data tt)) None))
      creatingGroup
  = Some (false,
          {| resource := syncedAvailable;
             sent := [ DescribeReplicationGroups name;
                       DescribeCacheClusters cacheClusterID;
                       ModifyReplicationGroup name ] |}).
Proof. vm_compute. reflexivity. Qed.

Example TestSync_SuccessfulSyncWhileGroupAvailableAndCacheClustersNeedUpdate :
  run (sync (MockClient None
               (Some (Data [availableGroup elasticache.AutomaticFailoverStatusEnabled]))
               (Some (Data [cacheCluster "never!"]))
               (Some (Data tt)) None))
      creatingGroup
  = Some (false,
          {| resource := syncedAvailable;
             sent := [ DescribeReplicationGroups name;
                       DescribeCacheClusters cacheClusterID;
                       ModifyReplicationGroup name ] |}).
Proof. vm_compute. reflexivity. Qed.

Example TestSync_FailedDescribeReplicationGroups :
  run (sync (MockClient None (Some (Failure errorBoom)) None None None))
      creatingGroup
  = Some (true,
          {| resource := replicationGroup
               [ withGroupName name;
                 withConditions
                   [ condition Creating ConditionTrue;
                     failure ConditionTrue reasonSyncingResource "boom" ] ];
             sent := [DescribeReplicationGroups name] |}).
Proof. vm_compute. reflexivity. Qed.

Example TestSync_FailedDescribeCacheClusters :
  run (sync (MockClient None (Some (Data [bareAvailableGroup]))
               (Some (Failure errorBoom)) None None))
      creatingGroup
  = Some (true,
          {| resource := replicationGroup
               [ withState StatusAvailable;
                 withGroupName name;
                 withConditions
                   [ condition Creating ConditionFalse;
                     condition Ready ConditionTrue;
                     failure ConditionTrue reasonSyncingResource
                       ("cannot describe cache cluster " ++ cacheClusterID ++ ": boom") ];
                 withMemberClusters [cacheClusterID] ];
             sent := [ DescribeReplicationGroups name;
                       DescribeCacheClusters cacheClusterID ] |}).
Proof. vm_compute. reflexivity. Qed.

Example TestSync_FailedModifyReplicationGroup :
  run (sync (MockClient None
               (Some (Data [availableGroup elasticache.AutomaticFailoverStatusEnabled]))
               (Some (Data [cacheCluster "never!"]))
               (Some (Failure errorBoom)) None))
      creatingGroup
  = Some (true,
          {| resource := replicationGroup
               [ withState StatusAvailable;
                 withGroupName name;
                 withConditions
                   [ condition Creating ConditionFalse;
                     condition Ready ConditionTrue;
                     failure ConditionTrue reasonSyncingResource "boom" ];
                 withPort port;
                 withEndpoint host;
                 withMemberClusters [cacheClusterID] ];
             sent := [ DescribeReplicationGroups name;
                       DescribeCacheClusters cacheClusterID;
                       ModifyReplicationGroup name ] |}).
Proof. vm_compute. reflexivity. Qed.

(** *** TestDelete *)

Example TestDelete_ReclaimRetainSuccessfulDelete :
  run (Delete (MockClient None None None None None)) (finalized ReclaimRetain)
  = Some (false,
          {| resource := replicationGroup
               [ withReclaimPolicy ReclaimRetain;
                 withConditions [condition Deleting ConditionTrue] ];
             sent := [] |}).
Proof. vm_compute. reflexivity. Qed.

Example TestDelete_ReclaimDeleteSuccessfulDelete :
  run (Delete (MockClient None None None None (Some (Data tt))))
      (finalized ReclaimDelete)
  = Some (false,
          {| resource := replicationGroup
               [ withReclaimPolicy ReclaimDelete;
                 withConditions [condition Deleting ConditionTrue] ];
             sent := [DeleteReplicationGroup ""] |}).
Proof. vm_compute. reflexivity. Qed.

Example TestDelete_ReclaimDeleteFailedDelete :
  run (Delete (MockClient None None None None (Some (Failure errorBoom))))
      (finalized ReclaimDelete)
  = Some (true,
          {| resource := replicationGroup
               [ withFinalizers [finalizerName];
                 withReclaimPolicy ReclaimDelete;
                 withConditions
                   [failure ConditionTrue reasonDeletingResource "boom"] ];
             sent := [DeleteReplicationGroup ""] |}).
Proof. vm_compute. reflexivity. Qed.

(** *** TestConnectionSecret *)

Example TestConnectionSecret_Successful :
  connectionSecret (replicationGroup [withEndpoint host]) authToken
  = {| SecretName := connectionSecretName;
       SecretNamespace := namespace;
       OwnerReferences :=
         [ {| OwnerAPIVersion := APIVersion; OwnerKind := ReplicationGroupKind;
              OwnerName := name; OwnerUID := uid;
              Controller := None; BlockOwnerDeletion := None |} ];
       SecretData :=
         {[ ResourceCredentialsSecretEndpointKey := bytes host;
            ResourceCredentialsSecretPasswordKey := bytes authToken ]} |}.
Proof. reflexivity. Qed.

End CacheTests.

(** ** cache: the controller *)
Section CacheFacts.

Import corev1alpha1 Cache.

(** Running a method symbolically: the combinators are unfolded, the loop
    over the member clusters is not. *)
Ltac step :=
  cbv beta iota zeta delta
    [run Sync Create Delete bind read send modify ret first panic SetFailed_];
  cbn [resource sent app].



(** The loop over the member clusters leaves the resource alone, sends one
    request per cluster up to the first failure, and fails exactly when one
    of the requests it sent failed. *)
Lemma describeCacheClusters_run (e : elastiCache) (members : list string) (st : Run) :
  exists rsp calls,
    describeCacheClusters e members st
    = Some (rsp, {| resource := resource st; sent := (sent st ++ calls)%list |}) /\
    existsb (failed (client e)) calls
    = match rsp with Failure _ => true | Data _ => false end.
Proof.
  revert st. induction members as [|cc rest IH]; intros st.
  - exists (Data []), []. destruct st. by rewrite app_nil_r.
  - cbn [describeCacheClusters]. unfold bind at 1, send at 1.
    destruct (DescribeCacheClustersRequest (client e) cc) as [ccs|err] eqn:Hcc.
    + unfold bind at 1.
      destruct (IH {| resource := resource st;
                      sent := (sent st ++ [DescribeCacheClusters cc])%list |})
        as (rsp & calls & -> & Hfailed).
      cbn [resource sent]. rewrite <- app_assoc.
      destruct rsp as [ccs'|err'].
      * exists (Data (ccs ++ ccs')%list), (DescribeCacheClusters cc :: calls).
        split; [reflexivity|]. simpl. by rewrite Hcc, Hfailed.
      * exists (Failure err'), (DescribeCacheClusters cc :: calls).
        split; [reflexivity|]. simpl. by rewrite Hcc.
    + exists (Failure (Wrapf err ("cannot describe cache cluster " ++ cc))),
        [DescribeCacheClusters cc].
      split; [reflexivity|]. simpl. by rewrite Hcc.
Qed.


Section SyncFacts.

Variable NeedsUpdate :
  ReplicationGroup -> elasticache.ReplicationGroup ->
  list elasticache.CacheCluster -> bool.

(** The end of [Sync], from the description of the cache clusters on: it
    requeues exactly when one of its requests fails, and leaves the state
    of the group as it is. *)
Lemma Sync_clusters_and_update (e : elastiCache)
    (rg : elasticache.ReplicationGroup) (st : Run) :
  exists requeue out calls,
    (let* ccList := describeCacheClusters e (elasticache.MemberClusters rg) in
     match ccList with
     | Data ccs =>
         let* g := read in
         if negb (NeedsUpdate g rg ccs) then ret false
         else
           let* rsp := send (ModifyReplicationGroup (GroupName (Status g)))
                         (ModifyReplicationGroupRequest (client e)
                            (GroupName (Status g))) in
           match rsp with
           | Data _ => ret false
           | Failure err => do SetFailed_ reasonSyncingResource err then ret true
           end
     | Failure err => do SetFailed_ reasonSyncingResource err then ret true
     end) st = Some (requeue, out) /\
    State (Status (resource out)) = State (Status (resource st)) /\
    sent out = (sent st ++ calls)%list /\
    requeue = existsb (failed (client e)) calls.
Proof.
  destruct (describeCacheClusters_run e (elasticache.MemberClusters rg) st)
    as (rsp & calls & Hrun & Hfailed).
  unfold bind at 1. rewrite Hrun. destruct rsp as [ccs|err].
  - step. destruct (NeedsUpdate _ rg ccs); cbn [negb].
    + destruct (ModifyReplicationGroupRequest _ _) as [[]|err] eqn:Hm.
      * exists false. eexists. eexists (calls ++ [_])%list.
        split; [reflexivity|]. cbn [resource sent]. split; [done|].
        split; [by rewrite app_assoc|].
        rewrite existsb_app, Hfailed. simpl. by rewrite Hm.
      * exists true. eexists. eexists (calls ++ [_])%list.
        split; [reflexivity|]. cbn [resource sent]. split; [done|].
        split; [by rewrite app_assoc|].
        rewrite existsb_app, Hfailed. simpl. by rewrite Hm.
    + exists false. eexists. exists calls. by rewrite Hfailed.
  - step. exists true. eexists. exists calls. by rewrite Hfailed.
Qed.

(** C1. For a replication group whose group name is set: when
    DescribeReplicationGroups fails, Sync requeues and leaves Status.State as
    it is; otherwise Sync copies the reported status into Status.State, and
    it requeues when the status is creating or modifying, does not requeue
    when it is deleting, and when it is available requeues exactly when one
    of the requests it sent failed, whether or not ModifyReplicationGroup
    was among them.  A failed request always requeues. *)
Theorem Sync_state_and_requeue (e : elastiCache) (r : ReplicationGroup) :
  GroupName (Status r) <> "" ->
  match DescribeReplicationGroupsRequest (client e) (GroupName (Status r)) with
  | Failure err =>
      exists out, run (Sync NeedsUpdate e) r = Some (true, out) /\
        State (Status (resource out)) = State (Status r)
  | Data [] => run (Sync NeedsUpdate e) r = None
  | Data (rg :: _) =>
      let state := aws.StringValue (elasticache.Status rg) in
      exists requeue out,
        run (Sync NeedsUpdate e) r = Some (requeue, out) /\
        State (Status (resource out)) = state /\
        (state = StatusCreating \/ state = StatusModifying -> requeue = true) /\
        (state = StatusDeleting -> requeue = false) /\
        (state = StatusAvailable ->
           requeue = existsb (failed (client e)) (sent out)) /\
        (existsb (failed (client e)) (sent out) = true -> requeue = true)
  end.
Proof.
  intros _. step.
  destruct (DescribeReplicationGroupsRequest _ _) as [[|rg rest]|err] eqn:Hd.
  - reflexivity.
  - set (state := aws.StringValue (elasticache.Status rg)).
    assert (Hfirst : failed (client e) (DescribeReplicationGroups (GroupName (Status r))) = false).
    { simpl. by rewrite Hd. }
    case_bool_decide as Hdel; [|case_bool_decide as Hcre; [|case_bool_decide as Hmod]].
    + exists false. eexists. split; [reflexivity|]. simpl. rewrite Hd.
      repeat split; try done.
      intros [H|H]; rewrite Hdel in H; discriminate H.
    + exists true. eexists. split; [reflexivity|]. repeat split; try done.
      intros H; rewrite Hcre in H; discriminate H.
    + exists true. eexists. split; [reflexivity|]. repeat split; try done.
      intros H; rewrite Hmod in H; discriminate H.
    + assert (Hend : forall st,
        State (Status (resource st)) = state ->
        sent st = [DescribeReplicationGroups (GroupName (Status r))] ->
        forall requeue out calls,
        State (Status (resource out)) = State (Status (resource st)) ->
        sent out = (sent st ++ calls)%list ->
        requeue = existsb (failed (client e)) calls ->
        State (Status (resource out)) = state /\
        (state = StatusCreating \/ state = StatusModifying -> requeue = true) /\
        (state = StatusDeleting -> requeue = false) /\
        (state = StatusAvailable ->
           requeue = existsb (failed (client e)) (sent out)) /\
        (existsb (failed (client e)) (sent out) = true -> requeue = true)).
      { intros st Hst Hsent0 requeue out calls Hstate Hsent Hreq.
        assert (Hall : existsb (failed (client e)) (sent out) = requeue).
        { rewrite Hsent, Hsent0, existsb_app. cbn [existsb].
          by rewrite Hfirst, Hreq. }
        rewrite Hall. repeat split; try done; [congruence|tauto]. }
      destruct (elasticache.ConfigurationEndpoint rg) as [ep|].
      * edestruct (Sync_clusters_and_update e rg)
          as (requeue & out & calls & Hrun & Hstate & Hsent & Hreq).
        exists requeue, out. split; [exact Hrun|].
        eapply Hend; [| |exact Hstate|exact Hsent|exact Hreq]; reflexivity.
      * edestruct (Sync_clusters_and_update e rg)
          as (requeue & out & calls & Hrun & Hstate & Hsent & Hreq).
        exists requeue, out. split; [exact Hrun|].
        eapply Hend; [| |exact Hstate|exact Hsent|exact Hreq]; reflexivity.
  - eexists. split; [reflexivity|]. reflexivity.
Qed.

End SyncFacts.







(** C4. The connection secret of r and p is named by the connection secret
    reference of r, lies in the namespace of r, has one owner reference,
    to r (its API version, kind, name and UID), and its data maps the
    endpoint key to Status.Endpoint and the password key to p, and nothing
    else. *)
Theorem connectionSecret_contents (r : ReplicationGroup) (p : string) :
  let s := connectionSecret r p in
  SecretName s = ConnectionSecretRef (Spec r) /\
  SecretNamespace s = Namespace (Meta r) /\
  OwnerReferences s
    = [ {| OwnerAPIVersion := APIVersion; OwnerKind := ReplicationGroupKind;
           OwnerName := Name (Meta r); OwnerUID := UID (Meta r);
           Controller := None; BlockOwnerDeletion := None |} ] /\
  SecretData s !! ResourceCredentialsSecretEndpointKey
    = Some (bytes (Endpoint (Status r))) /\
  SecretData s !! ResourceCredentialsSecretPasswordKey = Some (bytes p) /\
  dom (SecretData s)
    = {[ ResourceCredentialsSecretEndpointKey;
         ResourceCredentialsSecretPasswordKey ]}.
Proof.
  cbn zeta. unfold connectionSecret. cbn [SecretName SecretNamespace
    OwnerReferences SecretData].
  split; [reflexivity|]. split; [reflexivity|]. split; [reflexivity|].
  split; [apply lookup_insert_eq|]. split.
  - rewrite lookup_insert_ne by done. apply lookup_insert_eq.
  - rewrite !dom_insert_L, dom_empty_L. set_solver.
Qed.

End CacheFacts.

(** TestSync's first case, read off the theorem: a group that is being
    created is requeued. *)
Lemma Sync_state_and_requeue_witness :
  Cache.GroupName (Cache.Status Cache.fixtures.creatingGroup) <> "" /\
  exists out,
    Cache.run (Cache.Sync Cache.fixtures.ReplicationGroupNeedsUpdate
                 (Cache.fixtures.MockClient None
                    (Some (Cache.Data [Cache.fixtures.groupWithStatus Cache.StatusCreating]))
                    None None None))
              Cache.fixtures.creatingGroup = Some (true, out) /\
    Cache.State (Cache.Status (Cache.resource out)) = Cache.StatusCreating.
Proof.
  assert (Hname : Cache.GroupName (Cache.Status Cache.fixtures.creatingGroup) <> "")
    by discriminate.
  split; [exact Hname|].
  pose proof (Sync_state_and_requeue Cache.fixtures.ReplicationGroupNeedsUpdate
                (Cache.fixtures.MockClient None
                   (Some (Cache.Data [Cache.fixtures.groupWithStatus Cache.StatusCreating]))
                   None None None)
                Cache.fixtures.creatingGroup Hname) as H.
  destruct H as (requeue & out & Hrun & Hstate & Hcreating & _).
  exists out. rewrite Hrun, Hstate. split; [|reflexivity].
  by rewrite (Hcreating (or_introl eq_refl)).
Defined.

(** * Further results *)

(** ** httpnamespace: what the create input keeps of the spec *)
Section HTTPNamespaceMore.

Import HTTPNamespace.

(** The fields of the create input, in closed form. *)
Lemma GenerateCreateHttpNamespaceInput_fields (cr : HTTPNamespace) :
  let p := ForProvider (Spec cr) in
  let res := GenerateCreateHttpNamespaceInput cr in
  svcsdk.CreatorRequestId res = None /\
  svcsdk.Description res = Description p /\
  svcsdk.Name res = Name p /\
  svcsdk.Tags res = fmap (M := list) f2elem <$> Tags p.
Proof.
  destruct cr as [[[d n tags]]]. cbn zeta.
  unfold GenerateCreateHttpNamespaceInput. cbn [Spec ForProvider Description Name Tags].
  destruct tags as [tags|].
  - rewrite f2loop_fmap. by destruct d, n.
  - by destruct d, n.
Qed.

Lemma f2elem_inj (t t' : Tag) : f2elem t = f2elem t' -> t = t'.
Proof.
  destruct t as [[k|] [v|]], t' as [[k'|] [v'|]]; cbv; congruence.
Qed.

Lemma fmap_f2elem_inj (l l' : list Tag) : f2elem <$> l = f2elem <$> l' -> l = l'.
Proof.
  revert l'. induction l as [|t l IH]; intros [|t' l']; try discriminate; [done|].
  rewrite !fmap_cons. intros [= Ht Hl]. f_equal; [by apply f2elem_inj|by apply IH].
Qed.

(** X1. The create input loses nothing of spec.forProvider: two resources
    with the same create input have the same description, name and tags
    (a nil list of tags and an empty one are told apart). *)
Theorem GenerateCreateHttpNamespaceInput_inj (cr cr' : HTTPNamespace) :
  GenerateCreateHttpNamespaceInput cr = GenerateCreateHttpNamespaceInput cr' ->
  cr = cr'.
Proof.
  intros Heq.
  destruct (GenerateCreateHttpNamespaceInput_fields cr) as (_ & Hd & Hn & Ht).
  destruct (GenerateCreateHttpNamespaceInput_fields cr') as (_ & Hd' & Hn' & Ht').
  rewrite Heq in Hd, Hn, Ht. rewrite Hd' in Hd. rewrite Hn' in Hn. rewrite Ht' in Ht.
  destruct cr as [[[d n tags]]], cr' as [[[d' n' tags']]].
  cbn [Spec ForProvider Description Name Tags] in *. subst d' n'.
  do 3 f_equal.
  destruct tags as [tags|], tags' as [tags'|]; try discriminate Ht; [|done].
  f_equal. apply fmap_f2elem_inj. by injection Ht.
Qed.

(** The hypothesis holds of a namespace and itself. *)
Lemma GenerateCreateHttpNamespaceInput_inj_witness :
  GenerateCreateHttpNamespaceInput describedNamespace
    = GenerateCreateHttpNamespaceInput describedNamespace /\
  describedNamespace = describedNamespace.
Proof.
  split; [reflexivity|].
  apply (GenerateCreateHttpNamespaceInput_inj describedNamespace describedNamespace).
  reflexivity.
Defined.

(** X2. The create input never carries a CreatorRequestId, and it is the
    empty input exactly when the spec sets none of description, name and
    tags. *)
Theorem GenerateCreateHttpNamespaceInput_unset (cr : HTTPNamespace) :
  let p := ForProvider (Spec cr) in
  svcsdk.CreatorRequestId (GenerateCreateHttpNamespaceInput cr) = None /\
  (GenerateCreateHttpNamespaceInput cr = svcsdk.emptyCreateInput <->
   Description p = None /\ Name p = None /\ Tags p = None).
Proof.
  cbn zeta.
  destruct (GenerateCreateHttpNamespaceInput_fields cr) as (Hc & Hd & Hn & Ht).
  split; [exact Hc|]. split.
  - intros Hempty. rewrite Hempty in Hd, Hn, Ht. simpl in Hd, Hn, Ht.
    repeat split; [done..|]. by destruct (Tags (ForProvider (Spec cr))).
  - intros (Hd' & Hn' & Ht'). rewrite Hd' in Hd. rewrite Hn' in Hn. rewrite Ht' in Ht.
    destruct (GenerateCreateHttpNamespaceInput cr). simpl in *. by subst.
Qed.

(** A namespace with an empty, non-nil list of tags does not give the
    empty input. *)
Lemma GenerateCreateHttpNamespaceInput_unset_witness :
  GenerateCreateHttpNamespaceInput untaggedNamespace <> svcsdk.emptyCreateInput.
Proof.
  destruct (GenerateCreateHttpNamespaceInput_unset untaggedNamespace) as [_ [H _]].
  intros Hempty. by destruct (H Hempty) as (_ & _ & Ht).
Defined.

End HTTPNamespaceMore.

(** ** integrationresponse: observing twice, and the shape of the conditions *)
Section IntegrationResponseMore.

Import IntegrationResponse.

Lemma Equal_sym (c d : xpv1.Condition) : xpv1.Equal c d = true -> xpv1.Equal d c = true.
Proof.
  intros (Ht & Hs & Hr & Hm)%Equal_fields. unfold xpv1.Equal.
  by rewrite !bool_decide_eq_true_2.
Qed.

Lemma Equal_trans (c d e : xpv1.Condition) :
  xpv1.Equal c d = true -> xpv1.Equal d e = true -> xpv1.Equal c e = true.
Proof.
  intros (Ht & Hs & Hr & Hm)%Equal_fields (Ht' & Hs' & Hr' & Hm')%Equal_fields.
  unfold xpv1.Equal. rewrite !bool_decide_eq_true_2; [done|congruence..].
Qed.

(** After [SetCondition new], the conditions of [new]'s type all agree with
    [new], and there is one. *)
Lemma SetCondition_settled (new : xpv1.Condition) (cs : list xpv1.Condition) :
  Forall (fun x => xpv1.Type_ x = xpv1.Type_ new -> xpv1.Equal x new = true)
         (xpv1.SetCondition new cs) /\
  existsb (fun x => bool_decide (xpv1.Type_ x = xpv1.Type_ new))
          (xpv1.SetCondition new cs) = true.
Proof.
  unfold xpv1.SetCondition.
  set (g := fun existing : xpv1.Condition =>
              if bool_decide _ then _ else existing).
  assert (Hg : Forall (fun x => xpv1.Type_ x = xpv1.Type_ new ->
                                xpv1.Equal x new = true) (g <$> cs)).
  { apply Forall_fmap, Forall_forall. intros x _. unfold g. simpl.
    case_bool_decide as Hx; [|done].
    destruct (xpv1.Equal x new) eqn:He; [done|]. intros _. apply Equal_refl. }
  destruct (existsb _ cs) eqn:Hex.
  - split; [exact Hg|].
    apply existsb_exists in Hex as (x & Hin & Hx). apply existsb_exists.
    exists (g x). split; [by apply in_map|].
    unfold g. rewrite Hx. apply bool_decide_eq_true in Hx.
    destruct (xpv1.Equal x new); by apply bool_decide_eq_true.
  - split.
    + apply Forall_app. split; [exact Hg|].
      constructor; [|constructor]. intros _. apply Equal_refl.
    + rewrite existsb_app. simpl. rewrite bool_decide_eq_true_2 by done.
      by rewrite orb_true_r.
Qed.

(** Setting a condition that agrees with the one just set changes nothing,
    not even the transition time. *)
Lemma SetCondition_again (new new' : xpv1.Condition) (cs : list xpv1.Condition) :
  xpv1.Equal new' new = true ->
  xpv1.SetCondition new' (xpv1.SetCondition new cs) = xpv1.SetCondition new cs.
Proof.
  intros Heq. destruct (SetCondition_settled new cs) as [Hall Hex].
  pose proof (Equal_fields _ _ Heq) as (Ht & _).
  generalize dependent (xpv1.SetCondition new cs). intros l Hall Hex.
  unfold xpv1.SetCondition. rewrite Ht, Hex. clear Hex.
  induction Hall as [|x l Hx _ IH]; [done|].
  rewrite fmap_cons. f_equal; [|exact IH].
  case_bool_decide as Hty; [|done].
  rewrite (Equal_trans x new new'); [done|by apply Hx|by apply Equal_sym].
Qed.

(** X3. Observing twice is observing once: a second successful postObserve
    leaves the resource exactly as the first left it, the transition time of
    the Ready condition included, whatever the clock says. *)
Theorem postObserve_idempotent (now now' : Time) (cr : IntegrationResponse)
    (got got' : svcsdk.GetIntegrationResponseOutput)
    (obs obs' : managed.ExternalObservation) :
  let cr1 := (postObserve now cr got obs ErrNil).1 in
  postObserve now' cr1 got' obs' ErrNil = (cr1, (obs', ErrNil)).
Proof.
  cbn zeta. unfold postObserve. simpl. unfold SetConditions. simpl.
  do 2 f_equal. apply SetCondition_again. reflexivity.
Qed.

Lemma SetCondition_types (new : xpv1.Condition) (cs : list xpv1.Condition) :
  xpv1.Type_ <$> xpv1.SetCondition new cs
  = if existsb (fun x => bool_decide (xpv1.Type_ x = xpv1.Type_ new)) cs
    then xpv1.Type_ <$> cs
    else ((xpv1.Type_ <$> cs) ++ [xpv1.Type_ new])%list.
Proof.
  unfold xpv1.SetCondition.
  set (g := fun existing : xpv1.Condition =>
              if bool_decide _ then _ else existing).
  assert (Hg : xpv1.Type_ <$> (g <$> cs) = xpv1.Type_ <$> cs).
  { rewrite <- list_fmap_compose. apply list_fmap_ext. intros _ x _.
    unfold g. simpl. case_bool_decide as Hx; [|done].
    by destruct (xpv1.Equal x new). }
  destruct (existsb _ cs); [exact Hg|]. by rewrite fmap_app, Hg.
Qed.

(** X4. postObserve keeps the rule that the schema of a condition states,
    at most one condition of each type: if no two conditions of the
    resource have the same type before, none have after, and the list of
    conditions grows by the Ready condition at most. *)
Theorem postObserve_one_condition_per_type (now : Time) (cr : IntegrationResponse)
    (got : svcsdk.GetIntegrationResponseOutput)
    (obs : managed.ExternalObservation) :
  let cr1 := (postObserve now cr got obs ErrNil).1 in
  NoDup (xpv1.Type_ <$> Conditions cr) ->
  NoDup (xpv1.Type_ <$> Conditions cr1) /\
  (xpv1.Type_ <$> Conditions cr1 = xpv1.Type_ <$> Conditions cr \/
   xpv1.Type_ <$> Conditions cr1
     = ((xpv1.Type_ <$> Conditions cr) ++ [xpv1.TypeReady])%list).
Proof.
  cbn zeta. intros Hnodup. unfold postObserve. simpl. unfold SetConditions. simpl.
  rewrite SetCondition_types.
  destruct (existsb _ (Conditions cr)) eqn:Hex; [by auto|].
  split; [|by right].
  apply NoDup_app. split; [exact Hnodup|]. split; [|apply NoDup_singleton].
  intros ty Hin ->%list_elem_of_singleton.
  apply list_elem_of_fmap in Hin as (x & Hty & Hx).
  assert (Hex' : existsb (fun x => bool_decide
            (xpv1.Type_ x = xpv1.Type_ (xpv1.Available now))) (Conditions cr) = true).
  { apply existsb_exists. exists x. split; [by apply list_elem_of_In|].
    by apply bool_decide_eq_true. }
  congruence.
Qed.

(** A resource that is synced and not yet ready keeps its two conditions,
    in their order, and the Ready one becomes true. *)
Lemma postObserve_one_condition_per_type_witness :
  NoDup (xpv1.Type_ <$> Conditions observedResponse) /\
  NoDup (xpv1.Type_ <$>
           Conditions (postObserve 20%Z observedResponse gotNothing
                         managed.zeroObservation ErrNil).1) /\
  xpv1.Type_ <$> Conditions (postObserve 20%Z observedResponse gotNothing
                               managed.zeroObservation ErrNil).1
  = ["Synced"; "Ready"].
Proof.
  assert (H : NoDup (xpv1.Type_ <$> Conditions observedResponse)).
  { apply NoDup_cons. split; [|apply NoDup_singleton].
    intros Hin. apply list_elem_of_singleton in Hin. discriminate Hin. }
  split; [exact H|].
  destruct (postObserve_one_condition_per_type 20%Z observedResponse gotNothing
              managed.zeroObservation H) as [Hnodup _].
  split; [exact Hnodup|reflexivity].
Defined.

End IntegrationResponseMore.

(** ** The ResolverEndpoint schema: more on what is stored *)
Section CRDMore.

Import CRD.

Variable formatOK : string -> JSON -> bool.


Lemma validate_type_string (s : Schema) (x : JSON) :
  type_ s = "string" -> validate formatOK s x = true -> exists v, x = JString v.
Proof.
  intros Ht Hv. destruct x; simpl in Hv; rewrite Ht in Hv; try discriminate Hv.
  eauto.
Qed.

Lemma validate_array (s p : Schema) (l : list JSON) :
  items s = Some p -> validate formatOK s (JArray l) = true ->
  Forall (fun x => validate formatOK p x = true) l.
Proof.
  intros Hp Hv. simpl in Hv. rewrite Hp in Hv.
  apply andb_true_iff in Hv as [_ Hv]. apply Forall_forall. intros x Hx.
  rewrite forallb_forall in Hv. apply Hv. by apply list_elem_of_In.
Qed.

Lemma validate_type_array (s : Schema) (x : JSON) :
  type_ s = "array" -> validate formatOK s x = true -> exists l, x = JArray l.
Proof.
  intros Ht Hv. destruct x; simpl in Hv; rewrite Ht in Hv; try discriminate Hv.
  eauto.
Qed.

(** What an accepted body is stored as: an object with a valid spec that
    holds a valid forProvider; the members of the spec are those of the
    pruned body, with their defaults. *)
Lemma accepted_shape (body stored : JSON) :
  accept formatOK openAPIV3Schema body = Some stored ->
  exists f3 spf3 fpf3 f2 spf2,
    stored = JObject f3 /\
    assoc "spec" f3 = Some (JObject spf3) /\
    validate formatOK spec (JObject spf3) = true /\
    assoc "forProvider" spf3 = Some (JObject fpf3) /\
    validate formatOK forProvider (JObject fpf3) = true /\
    dropNulls openAPIV3Schema (prune true (Some openAPIV3Schema) body)
      = JObject f2 /\
    assoc "spec" f2 = Some (JObject spf2) /\
    spf3 = defaultMember spec <$> (spf2 ++ missingDefaults (properties spec) spf2)%list.
Proof.
  unfold accept. intros Hacc.
  destruct (validate _ _ _) eqn:Hv; [|discriminate Hacc].
  apply (inj Some) in Hacc.
  remember (dropNulls openAPIV3Schema (prune true (Some openAPIV3Schema) body))
    as x2 eqn:Hx2.
  destruct (validate_type_object formatOK openAPIV3Schema _ eq_refl Hv) as [f3 Hf3].
  rewrite Hf3 in Hv.
  destruct (validate_required formatOK _ _ "spec" Hv) as [sp3 Hsp3]; [by left|].
  pose proof (validate_member formatOK _ _ _ _ _ Hv root_spec Hsp3) as Hvsp.
  destruct (validate_type_object formatOK spec _ eq_refl Hvsp) as [spf3 ->].
  destruct (validate_required formatOK _ _ "forProvider" Hvsp) as [fp3 Hfp3];
    [by left|].
  pose proof (validate_member formatOK _ _ _ _ _ Hvsp spec_forProvider Hfp3) as Hvfp.
  destruct (validate_type_object formatOK forProvider _ eq_refl Hvfp) as [fpf3 ->].
  destruct (stored_spec x2 f3 spf3) as (f2 & spf2 & Hx2' & Hsp2 & Hspf3);
    [exact Hf3|exact Hsp3|].
  exists f3, spf3, fpf3, f2, spf2. repeat split; try assumption; congruence.
Qed.

(** The spec of the body after pruning and the dropping of nulls. *)
Lemma body_spec_passes (body : JSON) (bsp : list (string * JSON)) :
  member "spec" body = Some (JObject bsp) ->
  exists f2,
    dropNulls openAPIV3Schema (prune true (Some openAPIV3Schema) body) = JObject f2 /\
    assoc "spec" f2
    = Some (JObject (omap (dropNullsMember spec)
                          (omap (pruneMember false (Some spec)) bsp))).
Proof.
  intros Hb. destruct body as [| | | | | |bf]; try discriminate Hb.
  simpl in Hb. rewrite prune_object, dropNulls_object.
  eexists. split; [reflexivity|].
  rewrite <- dropNulls_object, <- prune_object.
  apply (assoc_omap_Some (dropNullsMember openAPIV3Schema) (dropNulls spec)).
  - intros kv Hne kv' Hkv. by rewrite (dropNullsMember_key _ _ _ Hkv).
  - intros a Ha.
    rewrite (assoc_omap_Some (pruneMember true (Some openAPIV3Schema))
               (prune false (Some spec)) "spec" bf (JObject bsp)) in Ha.
    + injection Ha as <-. reflexivity.
    + intros kv Hne kv' Hkv. by rewrite (pruneMember_key _ _ _ _ Hkv).
    + reflexivity.
    + exact Hb.
  - apply (assoc_omap_Some (pruneMember true (Some openAPIV3Schema))
             (prune false (Some spec))); [|reflexivity|exact Hb].
    intros kv Hne kv' Hkv. by rewrite (pruneMember_key _ _ _ _ Hkv).
Qed.

Lemma spec_providerConfigRef :
  memberSchema spec "providerConfigRef" = Some providerConfigRef.
Proof. reflexivity. Qed.

(** X5. Every accepted object is stored with a spec.providerConfigRef, an
    object whose name is a string; when the spec of the request has no
    providerConfigRef, it is the reference to the provider configuration
    named default. *)
Theorem accepted_providerConfigRef (body stored : JSON) :
  accept formatOK openAPIV3Schema body = Some stored ->
  exists sp pcr name,
    member "spec" stored = Some sp /\
    member "providerConfigRef" sp = Some pcr /\
    member "name" pcr = Some (JString name) /\
    (forall bsp, member "spec" body = Some (JObject bsp) ->
       assoc "providerConfigRef" bsp = None ->
       pcr = JObject [("name", JString "default")]).
Proof.
  intros Hacc.
  destruct (accepted_shape _ _ Hacc)
    as (f3 & spf3 & fpf3 & f2 & spf2 & -> & Hsp3 & Hvsp & _ & _ & Hx2 & Hsp2 & Hspf3).
  assert (Hpcr : exists v, assoc "providerConfigRef" spf3 = Some v /\
            (assoc "providerConfigRef" spf2 = None ->
             v = JObject [("name", JString "default")])).
  { rewrite Hspf3, assoc_fmap_defaultMember, assoc_app.
    destruct (assoc "providerConfigRef" spf2) as [v|] eqn:Hv2.
    - eexists. split; [reflexivity|discriminate].
    - rewrite (assoc_missingDefaults _ _ _ providerConfigRef
                 (JObject [("name", JString "default")]));
        [|reflexivity..|exact Hv2].
      eexists. split; [reflexivity|]. intros _. reflexivity. }
  destruct Hpcr as (pcr & Hpcr & Hdefault).
  pose proof (validate_member formatOK _ _ _ _ _ Hvsp spec_providerConfigRef Hpcr)
    as Hvpcr.
  destruct (validate_type_object formatOK providerConfigRef _ eq_refl Hvpcr)
    as [pcrf ->].
  destruct (validate_required formatOK _ _ "name" Hvpcr) as [n Hn]; [by left|].
  assert (Hname : memberSchema providerConfigRef "name" = Some string_)
    by reflexivity.
  pose proof (validate_member formatOK _ _ _ _ _ Hvpcr Hname Hn) as Hvn.
  destruct (validate_type_string string_ _ eq_refl Hvn) as [name ->].
  exists (JObject spf3), (JObject pcrf), name.
  split; [exact Hsp3|]. split; [exact Hpcr|]. split; [exact Hn|].
  intros bsp Hbsp Hnone.
  destruct (body_spec_passes body bsp Hbsp) as (f2' & Hb & Hsp2').
  rewrite Hx2 in Hb. apply JObject_inj in Hb. subst f2'.
  rewrite Hsp2 in Hsp2'. apply (inj Some) in Hsp2'. apply JObject_inj in Hsp2'.
  apply Hdefault. rewrite Hsp2'.
  apply assoc_omap_None.
  { intros kv Hne kv' Hkv. by rewrite (dropNullsMember_key _ _ _ Hkv). }
  apply assoc_omap_None; [|exact Hnone].
  intros kv Hne kv' Hkv. by rewrite (pruneMember_key _ _ _ _ Hkv).
Qed.

Lemma fmap_subnetAddress (f : JSON -> JSON) (subnets : list string) :
  (forall s, f (subnetAddress s) = subnetAddress s) ->
  f <$> (subnetAddress <$> subnets) = subnetAddress <$> subnets.
Proof.
  intros Hf. rewrite <- list_fmap_compose. apply list_fmap_ext.
  intros _ s _. apply Hf.
Qed.

Lemma forallb_subnetAddress (P : JSON -> bool) (subnets : list string) :
  (forall s, P (subnetAddress s) = true) ->
  forallb P (subnetAddress <$> subnets) = true.
Proof.
  intros HP. induction subnets as [|s l IH]; [done|].
  rewrite fmap_cons. simpl. by rewrite HP, IH.
Qed.

(** X6. The three required members are enough: for every direction and
    region and every list of subnets, the request that holds them and
    nothing else in its spec is accepted, and stored with the deletion
    policy Delete and the provider configuration default. *)
Theorem minimalEndpoint_accepted (direction region : string)
    (subnets : list string) :
  accept formatOK openAPIV3Schema (minimalEndpoint direction region subnets)
  = Some (minimalEndpointStored direction region subnets).
Proof.
  unfold accept, minimalEndpoint, minimalEndpointStored, minimalForProvider.
  simpl prune.
  rewrite (fmap_subnetAddress (prune false (Some ipAddressRequest))) by reflexivity.
  simpl dropNulls.
  rewrite (fmap_subnetAddress (dropNulls ipAddressRequest)) by reflexivity.
  simpl Default.
  match goal with
  | |- context [JArray (?f <$> (subnetAddress <$> subnets))] =>
      rewrite (fmap_subnetAddress f) by reflexivity
  end.
  unfold orDefault. cbn [isNull].
  simpl validate.
  by rewrite (forallb_subnetAddress (validate formatOK ipAddressRequest)).
Qed.





Lemma forProvider_direction : memberSchema forProvider "direction" = Some string_.
Proof. reflexivity. Qed.

Lemma forProvider_region : memberSchema forProvider "region" = Some string_.
Proof. reflexivity. Qed.

Lemma forProvider_ipAddresses :
  memberSchema forProvider "ipAddresses" = Some (array_ ipAddressRequest).
Proof. reflexivity. Qed.

Lemma ipAddressRequest_subnetIdRef :
  memberSchema ipAddressRequest "subnetIdRef" = Some reference.
Proof. reflexivity. Qed.

(** X8. In every accepted object direction and region are strings and
    ipAddresses is an array of objects; a subnetIdRef of an address is an
    object with a name, which is a string. *)
Theorem accepted_forProvider_types (body stored : JSON) :
  accept formatOK openAPIV3Schema body = Some stored ->
  exists sp fp direction region addresses,
    member "spec" stored = Some sp /\
    member "forProvider" sp = Some fp /\
    member "direction" fp = Some (JString direction) /\
    member "region" fp = Some (JString region) /\
    member "ipAddresses" fp = Some (JArray addresses) /\
    Forall (fun address =>
              exists f, address = JObject f /\
                forall ref, assoc "subnetIdRef" f = Some ref ->
                  exists name, member "name" ref = Some (JString name))
           addresses.
Proof.
  intros Hacc.
  destruct (accepted_shape _ _ Hacc)
    as (f3 & spf3 & fpf3 & f2 & spf2 & -> & Hsp3 & _ & Hfp3 & Hvfp & _).
  destruct (validate_required formatOK _ _ "direction" Hvfp) as [d Hd];
    [simpl; auto|].
  destruct (validate_required formatOK _ _ "region" Hvfp) as [r Hr];
    [simpl; auto|].
  destruct (validate_required formatOK _ _ "ipAddresses" Hvfp) as [ips Hips];
    [simpl; auto|].
  pose proof (validate_member formatOK _ _ _ _ _ Hvfp forProvider_direction Hd) as Hvd.
  pose proof (validate_member formatOK _ _ _ _ _ Hvfp forProvider_region Hr) as Hvr.
  pose proof (validate_member formatOK _ _ _ _ _ Hvfp forProvider_ipAddresses Hips)
    as Hvips.
  destruct (validate_type_string string_ _ eq_refl Hvd) as [direction ->].
  destruct (validate_type_string string_ _ eq_refl Hvr) as [region ->].
  destruct (validate_type_array (array_ ipAddressRequest) _ eq_refl Hvips)
    as [addresses ->].
  exists (JObject spf3), (JObject fpf3), direction, region, addresses.
  repeat (split; [assumption|]).
  pose proof (validate_array (array_ ipAddressRequest) ipAddressRequest _
                eq_refl Hvips) as Hall.
  eapply Forall_impl; [exact Hall|]. intros address Hva. simpl in Hva.
  destruct (validate_type_object formatOK ipAddressRequest _ eq_refl Hva) as [f ->].
  exists f. split; [reflexivity|]. intros ref Href.
  pose proof (validate_member formatOK _ _ _ _ _ Hva ipAddressRequest_subnetIdRef Href)
    as Hvref.
  destruct (validate_type_object formatOK reference _ eq_refl Hvref) as [reff ->].
  destruct (validate_required formatOK _ _ "name" Hvref) as [n Hn]; [by left|].
  assert (Hname : memberSchema reference "name" = Some string_) by reflexivity.
  pose proof (validate_member formatOK _ _ _ _ _ Hvref Hname Hn) as Hvn.
  destruct (validate_type_string string_ _ eq_refl Hvn) as [name ->].
  by exists name.
Qed.

(** X9. A deletion policy that the request spells as null counts as
    omitted: the object is stored with the deletion policy Delete. *)
Theorem null_deletionPolicy_defaulted (body stored : JSON)
    (bsp : list (string * JSON)) :
  accept formatOK openAPIV3Schema body = Some stored ->
  member "spec" body = Some (JObject bsp) ->
  assoc "deletionPolicy" bsp = Some JNull ->
  exists sp, member "spec" stored = Some sp /\
    member "deletionPolicy" sp = Some (JString "Delete").
Proof.
  intros Hacc Hbsp Hnull.
  destruct (accepted_shape _ _ Hacc)
    as (f3 & spf3 & fpf3 & f2 & spf2 & -> & Hsp3 & _ & _ & _ & Hx2 & Hsp2 & Hspf3).
  destruct (body_spec_passes body bsp Hbsp) as (f2' & Hb & Hsp2').
  rewrite Hx2 in Hb. apply JObject_inj in Hb. subst f2'.
  rewrite Hsp2 in Hsp2'. apply (inj Some) in Hsp2'. apply JObject_inj in Hsp2'.
  assert (Hdp2 : assoc "deletionPolicy" spf2 = Some JNull).
  { rewrite Hsp2'.
    apply (assoc_omap_Some (dropNullsMember spec) (dropNulls deletionPolicy)
             "deletionPolicy" _ JNull).
    - intros kv Hne kv' Hkv. by rewrite (dropNullsMember_key _ _ _ Hkv).
    - intros a _. unfold dropNullsMember. cbn [fst snd].
      rewrite spec_deletionPolicy.
      change (negb (bool_decide (is_Some (default_ deletionPolicy)))) with false.
      by rewrite andb_false_r.
    - apply (assoc_omap_Some (pruneMember false (Some spec))
               (prune false (Some deletionPolicy)) "deletionPolicy" _ JNull);
        [|reflexivity|exact Hnull].
      intros kv Hne kv' Hkv. by rewrite (pruneMember_key _ _ _ _ Hkv). }
  exists (JObject spf3). split; [exact Hsp3|].
  simpl. rewrite Hspf3, assoc_fmap_defaultMember, assoc_app, Hdp2. reflexivity.
Qed.

End CRDMore.

Lemma accepted_providerConfigRef_witness :
  CRD.accept (fun _ _ => true) CRD.openAPIV3Schema CRD.inboundEndpoint
    = Some CRD.inboundEndpointStored /\
  exists sp, CRD.member "spec" CRD.inboundEndpointStored = Some sp /\
    CRD.member "providerConfigRef" sp
      = Some (CRD.JObject [("name", CRD.JString "default")]).
Proof.
  split; [reflexivity|].
  destruct (accepted_providerConfigRef (fun _ _ => true) CRD.inboundEndpoint
              CRD.inboundEndpointStored eq_refl)
    as (sp & pcr & name & Hsp & Hpcr & _ & Hdefault).
  exists sp. split; [exact Hsp|].
  rewrite Hpcr. f_equal. eapply Hdefault; reflexivity.
Defined.


Lemma accepted_forProvider_types_witness :
  CRD.accept (fun _ _ => true) CRD.openAPIV3Schema CRD.inboundEndpoint
    = Some CRD.inboundEndpointStored /\
  exists sp fp region, CRD.member "spec" CRD.inboundEndpointStored = Some sp /\
    CRD.member "forProvider" sp = Some fp /\
    CRD.member "region" fp = Some (CRD.JString region).
Proof.
  split; [reflexivity|].
  destruct (accepted_forProvider_types (fun _ _ => true) CRD.inboundEndpoint
              CRD.inboundEndpointStored eq_refl)
    as (sp & fp & d & r & ips & Hsp & Hfp & _ & Hr & _).
  by exists sp, fp, r.
Defined.

Lemma null_deletionPolicy_defaulted_witness :
  exists stored sp,
    CRD.accept (fun _ _ => true) CRD.openAPIV3Schema CRD.endpointNullPolicy
      = Some stored /\
    CRD.member "spec" stored = Some sp /\
    CRD.member "deletionPolicy" sp = Some (CRD.JString "Delete").
Proof.
  destruct (CRD.accept (fun _ _ => true) CRD.openAPIV3Schema CRD.endpointNullPolicy)
    as [stored|] eqn:Hacc; [|discriminate Hacc].
  destruct (null_deletionPolicy_defaulted (fun _ _ => true)
              CRD.endpointNullPolicy stored _ Hacc eq_refl eq_refl)
    as (sp & Hsp & Hdp).
  by exists stored, sp.
Defined.

(** ** cache: the helpers of the tests *)
Section CacheFixtureFacts.

Import corev1alpha1 Cache Cache.fixtures.

(** X10. The modifiers of the tests write one field each: two modifiers of
    different fields can be applied in either order, and of two modifiers of
    the same field the one applied last decides. *)
Theorem modifiers_commute_or_overwrite (m m' : Modifier) (r : ReplicationGroup) :
  (written m <> written m' ->
     modifier m (modifier m' r) = modifier m' (modifier m r)) /\
  (written m = written m' ->
     modifier m (modifier m' r) = modifier m r).
Proof.
  split; intros Hw; destruct m, m'; simpl in Hw;
    try discriminate Hw; try (by destruct Hw); reflexivity.
Qed.

(** TestSync lists withState and withGroupName in both orders. *)
Lemma modifiers_commute_or_overwrite_witness :
  replicationGroup [withState StatusDeleting; withGroupName name]
  = replicationGroup [withGroupName name; withState StatusDeleting].
Proof.
  destruct (modifiers_commute_or_overwrite (WithGroupName name)
              (WithState StatusDeleting) (replicationGroup [])) as [Hcomm _].
  apply Hcomm. discriminate.
Defined.

End CacheFixtureFacts.

(** ** cache: the name of a replication group *)
Section GroupNameFacts.

Import Cache.

Open Scope Z_scope.

Lemma Sum64a_range (data : string) : 0 <= fnv.Sum64a data < 2 ^ 64.
Proof.
  unfold fnv.Sum64a.
  assert (H : forall h, 0 <= h < 2 ^ 64 -> 0 <= fnv.write h data < 2 ^ 64).
  { induction data as [|c rest IH]; intros h Hh; [exact Hh|].
    simpl. apply IH. unfold fnv.step. apply Z.mod_pos_bound. lia. }
  apply H. unfold fnv.offset64. lia.
Qed.

Lemma digitValue_hexDigit (d : Z) :
  0 <= d < 16 -> fnv.digitValue (fnv.hexDigit d) = Some d.
Proof.
  intros Hd.
  assert (Hcases : d = 0 \/ d = 1 \/ d = 2 \/ d = 3 \/ d = 4 \/ d = 5 \/ d = 6
                   \/ d = 7 \/ d = 8 \/ d = 9 \/ d = 10 \/ d = 11 \/ d = 12
                   \/ d = 13 \/ d = 14 \/ d = 15) by lia.
  repeat (destruct Hcases as [->|Hcases]; [reflexivity|]). by subst.
Qed.

(** Reading back what [hexFrom] wrote in front of [acc] gives the number,
    shifted past the digits that were already read. *)
Lemma parseFrom_hexFrom (digits : nat) (n : Z) (acc : string) :
  0 <= n < 16 ^ Z.of_nat digits ->
  exists k, forall a,
    fnv.parseFrom a (fnv.hexFrom digits n acc)
    = fnv.parseFrom (a * 16 ^ Z.of_nat k + n) acc.
Proof.
  revert n acc. induction digits as [|digits IH]; intros n acc Hn.
  - exists 0%nat. intros a. simpl in *. f_equal. lia.
  - cbn [fnv.hexFrom].
    assert (Hdigit : 0 <= n mod 16 < 16) by (apply Z.mod_pos_bound; lia).
    destruct (n / 16 =? 0) eqn:Hq.
    + exists 1%nat. intros a. cbn [fnv.parseFrom].
      rewrite (digitValue_hexDigit _ Hdigit). f_equal.
      apply Z.eqb_eq in Hq. rewrite (Z.div_mod n 16) at 2 by lia. lia.
    + destruct (IH (n / 16) (String (fnv.hexDigit (n mod 16)) acc)) as [k Hk].
      { split; [apply Z.div_pos; lia|].
        apply Z.div_lt_upper_bound; [lia|].
        rewrite Nat2Z.inj_succ, Z.pow_succ_r in Hn by lia. lia. }
      exists (S k). intros a. rewrite Hk. cbn [fnv.parseFrom].
      rewrite (digitValue_hexDigit _ Hdigit). f_equal.
      rewrite Nat2Z.inj_succ, Z.pow_succ_r by lia.
      rewrite (Z.div_mod n 16) at 3 by lia. lia.
Qed.

Lemma hexFrom_length (digits : nat) (n : Z) (acc : string) :
  (String.length (fnv.hexFrom digits n acc)
   <= digits + String.length acc)%nat.
Proof.
  revert n acc. induction digits as [|digits IH]; intros n acc; [done|].
  cbn [fnv.hexFrom]. destruct (n / 16 =? 0).
  - simpl. lia.
  - etrans; [apply IH|]. simpl. lia.
Qed.

Lemma parseHex_hex (n : Z) : 0 <= n < 2 ^ 64 -> fnv.parseHex (fnv.hex n) = Some n.
Proof.
  intros Hn. unfold fnv.parseHex, fnv.hex.
  destruct (parseFrom_hexFrom 16 n "") as [k Hk]; [simpl; lia|].
  rewrite Hk. cbn [fnv.parseFrom]. reflexivity.
Qed.

Lemma string_length_app (a b : string) :
  String.length (a ++ b)%string = (String.length a + String.length b)%nat.
Proof. induction a as [|c a IH]; [done|]. simpl. by rewrite IH. Qed.

Lemma string_app_inv_head (a b c : string) :
  (a ++ b)%string = (a ++ c)%string -> b = c.
Proof. induction a as [|x a IH]; [done|]. simpl. intros [= H]. by apply IH. Qed.

(** X11. Whatever NamePrefix is, the name of a replication group is at most
    17 characters longer than it (a dash and up to 16 hexadecimal digits),
    the numeral after the dash reads back as the FNV-64a hash of the UID,
    and two resources get the same name exactly when the hashes of their
    UIDs agree. *)
Theorem NewReplicationGroupID_bounded_and_faithful (r r' : ReplicationGroup) :
  (String.length (NewReplicationGroupID r)
   <= String.length NamePrefix + 17)%nat /\
  (exists numeral,
     NewReplicationGroupID r = (NamePrefix ++ "-" ++ numeral)%string /\
     fnv.parseHex numeral = Some (fnv.Sum64a (UID (Meta r)))) /\
  (NewReplicationGroupID r = NewReplicationGroupID r' <->
   fnv.Sum64a (UID (Meta r)) = fnv.Sum64a (UID (Meta r'))).
Proof.
  unfold NewReplicationGroupID. split; [|split].
  - rewrite !string_length_app. cbn [String.length].
    pose proof (hexFrom_length 16 (fnv.Sum64a (UID (Meta r))) "") as H.
    unfold fnv.hex. cbn [String.length] in H. lia.
  - eexists. split; [reflexivity|]. apply parseHex_hex, Sum64a_range.
  - split; [|by intros ->].
    intros Heq. apply string_app_inv_head in Heq.
    apply (string_app_inv_head "-") in Heq.
    pose proof (parseHex_hex _ (Sum64a_range (UID (Meta r)))) as H.
    pose proof (parseHex_hex _ (Sum64a_range (UID (Meta r')))) as H'.
    rewrite Heq in H. congruence.
Qed.

(** Two resources with the same UID get the same name. *)
Lemma NewReplicationGroupID_bounded_and_faithful_witness :
  NewReplicationGroupID (fixtures.replicationGroup [])
    = NewReplicationGroupID (fixtures.replicationGroup [fixtures.withAuth]).
Proof.
  destruct (NewReplicationGroupID_bounded_and_faithful
              (fixtures.replicationGroup [])
              (fixtures.replicationGroup [fixtures.withAuth])) as (_ & _ & [_ H]).
  apply H. reflexivity.
Defined.

End GroupNameFacts.

(** ** cache: what Sync and Delete leave alone, and how the methods chain *)
Section CacheMore.

Import corev1alpha1 Cache.

Variable NeedsUpdate :
  ReplicationGroup -> elasticache.ReplicationGroup ->
  list elasticache.CacheCluster -> bool.

Ltac unfold_run :=
  cbv beta iota zeta delta
    [run Sync Create Delete bind read send modify ret first panic SetFailed_];
  cbn [resource sent app].

(** The requests of the loop over the member clusters describe cache
    clusters, and nothing else. *)
Lemma describeCacheClusters_calls (e : elastiCache) (members : list string)
    (st : Run) :
  exists rsp clusters,
    describeCacheClusters e members st
    = Some (rsp, {| resource := resource st;
                    sent := (sent st ++ (DescribeCacheClusters <$> clusters))%list |}).
Proof.
  revert st. induction members as [|cc rest IH]; intros st.
  - exists (Data []), []. destruct st. simpl. by rewrite app_nil_r.
  - cbn [describeCacheClusters]. unfold bind at 1, send at 1.
    destruct (DescribeCacheClustersRequest (client e) cc) as [ccs|err].
    + unfold bind at 1.
      destruct (IH {| resource := resource st;
                      sent := (sent st ++ [DescribeCacheClusters cc])%list |})
        as (rsp & clusters & ->).
      cbn [resource sent]. rewrite <- app_assoc.
      destruct rsp as [ccs'|err']; eexists _, (cc :: clusters); reflexivity.
    + eexists _, [cc]. reflexivity.
Qed.

(** The end of [Sync] changes the conditions at most, and sends the
    descriptions of cache clusters and then at most one modification. *)
Lemma Sync_end_frame (e : elastiCache) (rg : elasticache.ReplicationGroup)
    (st : Run) :
  exists requeue out clusters rest,
    (let* ccList := describeCacheClusters e (elasticache.MemberClusters rg) in
     match ccList with
     | Data ccs =>
         let* g := read in
         if negb (NeedsUpdate g rg ccs) then ret false
         else
           let* rsp := send (ModifyReplicationGroup (GroupName (Status g)))
                         (ModifyReplicationGroupRequest (client e)
                            (GroupName (Status g))) in
           match rsp with
           | Data _ => ret false
           | Failure err => do SetFailed_ reasonSyncingResource err then ret true
           end
     | Failure err => do SetFailed_ reasonSyncingResource err then ret true
     end) st = Some (requeue, out) /\
    Meta (resource out) = Meta (resource st) /\
    Spec (resource out) = Spec (resource st) /\
    GroupName (Status (resource out)) = GroupName (Status (resource st)) /\
    sent out = (sent st ++ (DescribeCacheClusters <$> clusters) ++ rest)%list /\
    (rest = [] \/
     rest = [ModifyReplicationGroup (GroupName (Status (resource st)))]).
Proof.
  destruct (describeCacheClusters_calls e (elasticache.MemberClusters rg) st)
    as (rsp & clusters & Hrun).
  unfold bind at 1. rewrite Hrun. destruct rsp as [ccs|err].
  - unfold_run. destruct (NeedsUpdate _ rg ccs); cbn [negb].
    + destruct (ModifyReplicationGroupRequest _ _) as [[]|err];
        eexists _, _, clusters, [_];
        (split; [reflexivity|]); cbn [resource sent];
        rewrite <- app_assoc; auto 10.
    + eexists _, _, clusters, []. split; [reflexivity|].
      cbn [resource sent]. rewrite app_nil_r. auto 10.
  - unfold_run. eexists _, _, clusters, []. split; [reflexivity|].
    cbn [resource sent]. rewrite app_nil_r. auto 10.
Qed.

(** X12. Whatever Sync returns, it has left the metadata (finalizers
    included), the spec and Status.GroupName of the resource as they were,
    and it has sent, in this order, one DescribeReplicationGroups request,
    DescribeCacheClusters requests, and at most one ModifyReplicationGroup
    request for the same group: it never creates or deletes. *)
Theorem Sync_frame (e : elastiCache) (r : ReplicationGroup)
    (requeue : bool) (out : Run) :
  run (Sync NeedsUpdate e) r = Some (requeue, out) ->
  Meta (resource out) = Meta r /\
  Spec (resource out) = Spec r /\
  GroupName (Status (resource out)) = GroupName (Status r) /\
  exists clusters rest,
    sent out = (DescribeReplicationGroups (GroupName (Status r))
                  :: (DescribeCacheClusters <$> clusters) ++ rest)%list /\
    (rest = [] \/ rest = [ModifyReplicationGroup (GroupName (Status r))]).
Proof.
  unfold_run.
  destruct (DescribeReplicationGroupsRequest _ _) as [[|rg rest]|err].
  - discriminate.
  - set (state := aws.StringValue (elasticache.Status rg)).
    assert (Hnone : forall q (o : Run),
      Meta (resource o) = Meta r -> Spec (resource o) = Spec r ->
      GroupName (Status (resource o)) = GroupName (Status r) ->
      sent o = [DescribeReplicationGroups (GroupName (Status r))] ->
      Some (q, o) = Some (requeue, out) ->
      Meta (resource out) = Meta r /\ Spec (resource out) = Spec r /\
      GroupName (Status (resource out)) = GroupName (Status r) /\
      exists clusters rest,
        sent out = (DescribeReplicationGroups (GroupName (Status r))
                      :: (DescribeCacheClusters <$> clusters) ++ rest)%list /\
        (rest = [] \/ rest = [ModifyReplicationGroup (GroupName (Status r))])).
    { intros q o Hm Hs Hg Hsent [= _ <-]. repeat split; try assumption.
      exists [], []. rewrite Hsent. auto. }
    assert (Hend : forall st,
      Meta (resource st) = Meta r -> Spec (resource st) = Spec r ->
      GroupName (Status (resource st)) = GroupName (Status r) ->
      sent st = [DescribeReplicationGroups (GroupName (Status r))] ->
      forall q (o : Run) clusters rest,
      Meta (resource o) = Meta (resource st) ->
      Spec (resource o) = Spec (resource st) ->
      GroupName (Status (resource o)) = GroupName (Status (resource st)) ->
      sent o = (sent st ++ (DescribeCacheClusters <$> clusters) ++ rest)%list ->
      (rest = [] \/
       rest = [ModifyReplicationGroup (GroupName (Status (resource st)))]) ->
      Some (q, o) = Some (requeue, out) ->
      Meta (resource out) = Meta r /\ Spec (resource out) = Spec r /\
      GroupName (Status (resource out)) = GroupName (Status r) /\
      exists clusters rest,
        sent out = (DescribeReplicationGroups (GroupName (Status r))
                      :: (DescribeCacheClusters <$> clusters) ++ rest)%list /\
        (rest = [] \/ rest = [ModifyReplicationGroup (GroupName (Status r))])).
    { intros st Hm Hs Hg Hsent q o clusters rest' Hm' Hs' Hg' Hsent' Hrest [= _ <-].
      repeat split; [congruence..|].
      exists clusters, rest'. rewrite Hsent', Hsent. split; [reflexivity|].
      by rewrite <- Hg. }
    case_bool_decide; [|case_bool_decide; [|case_bool_decide]].
    + by apply Hnone.
    + by apply Hnone.
    + by apply Hnone.
    + destruct (elasticache.ConfigurationEndpoint rg) as [ep|];
        edestruct (Sync_end_frame e rg)
          as (q & o & clusters & rest' & Hrun & Hm & Hs & Hg & Hsent & Hrest);
        intros Hout;
        (eapply Hend;
           [| | | |exact Hm|exact Hs|exact Hg|exact Hsent|exact Hrest
            |rewrite <- Hrun; exact Hout]; reflexivity).
  - intros [= _ <-]. repeat split. exists [], []. auto.
Qed.


End CacheMore.

Section DeleteMore.

Import corev1alpha1 Cache.

Ltac unfold_run :=
  cbv beta iota zeta delta
    [run Delete bind read send modify ret SetFailed_];
  cbn [resource sent app].

Lemma SetCondition_idem (c : Condition) (cs : list Condition) :
  SetCondition c (SetCondition c cs) = SetCondition c cs.
Proof.
  induction cs as [|x cs IH]; simpl.
  - by rewrite bool_decide_eq_true_2.
  - case_bool_decide as Hx; simpl.
    + by rewrite bool_decide_eq_true_2.
    + by rewrite bool_decide_eq_false_2, IH.
Qed.

(** X14. Deleting again, with whatever client: if a first Delete did not
    requeue a resource whose finalizers are pairwise different, a later
    Delete of what it left does not requeue and changes nothing, provided
    the reclaim policy asks for no request or the later
    DeleteReplicationGroup request succeeds; if that request fails, the
    later Delete requeues and keeps the finalizers as they are. *)
Theorem Delete_again (e e' : elastiCache) (r : ReplicationGroup) (deleted : Run) :
  NoDup (Finalizers (Meta r)) ->
  run (Delete e) r = Some (false, deleted) ->
  (ReclaimPolicy (Spec r) <> ReclaimDelete \/
   failed (client e') (DeleteReplicationGroup (GroupName (Status r))) = false ->
     exists again,
       run (Delete e') (resource deleted) = Some (false, again) /\
       resource again = resource deleted) /\
  (ReclaimPolicy (Spec r) = ReclaimDelete ->
   failed (client e') (DeleteReplicationGroup (GroupName (Status r))) = true ->
     exists again,
       run (Delete e') (resource deleted) = Some (true, again) /\
       Finalizers (Meta (resource again)) = Finalizers (Meta (resource deleted))).
Proof.
  intros _ Hrun.
  assert (Hdeleted : resource deleted
            = RemoveFinalizer finalizerName (mapConditions SetDeleting r)).
  { revert Hrun. unfold_run. case_bool_decide.
    - destruct (DeleteReplicationGroupRequest _ _) as [[]|err]; [|discriminate].
      by intros [= <-].
    - by intros [= <-]. }
  assert (Hsame : RemoveFinalizer finalizerName
                    (mapConditions SetDeleting (resource deleted))
                  = resource deleted).
  { rewrite Hdeleted.
    unfold RemoveFinalizer, setFinalizers, mapConditions, withStatus. simpl.
    unfold SetDeleting. rewrite SetCondition_idem, list_filter_filter.
    do 3 f_equal. apply list_filter_iff. tauto. }
  assert (Hpolicy : ReclaimPolicy (Spec (resource deleted)) = ReclaimPolicy (Spec r))
    by (by rewrite Hdeleted).
  assert (Hname : GroupName (Status (resource deleted)) = GroupName (Status r))
    by (by rewrite Hdeleted).
  split.
  - intros Hok. unfold_run. rewrite Hpolicy, Hname.
    case_bool_decide as Hp.
    + destruct Hok as [Hno|Hok]; [done|]. simpl in Hok.
      destruct (DeleteReplicationGroupRequest _ _) as [[]|err];
        [|discriminate Hok].
      eexists. split; [reflexivity|]. exact Hsame.
    + eexists. split; [reflexivity|]. exact Hsame.
  - intros Hp Hfail. unfold_run. rewrite Hpolicy, Hname.
    rewrite bool_decide_eq_true_2 by exact Hp. simpl in Hfail.
    destruct (DeleteReplicationGroupRequest _ _) as [[]|err];
      [discriminate Hfail|].
    eexists. split; reflexivity.
Qed.

End DeleteMore.

(** TestSync's case with an available group that needs an update. *)
Lemma Sync_frame_witness :
  exists out,
    Cache.run (Cache.Sync Cache.fixtures.ReplicationGroupNeedsUpdate
           (Cache.fixtures.MockClient None
              (Some (Cache.Data [Cache.fixtures.availableGroup
                             Cache.elasticache.AutomaticFailoverStatusDisabled]))
              (Some (Cache.Data [Cache.fixtures.cacheCluster
                                   Cache.fixtures.maintenanceWindow]))
              (Some (Cache.Data tt)) None))
        Cache.fixtures.creatingGroup = Some (false, out) /\
    Cache.Spec (Cache.resource out) = Cache.Spec Cache.fixtures.creatingGroup.
Proof.
  pose (out := {| Cache.resource := Cache.fixtures.syncedAvailable;
                  Cache.sent :=
                    [ Cache.DescribeReplicationGroups Cache.fixtures.name;
                      Cache.DescribeCacheClusters Cache.fixtures.cacheClusterID;
                      Cache.ModifyReplicationGroup Cache.fixtures.name ] |}).
  assert (Hrun : Cache.run (Cache.Sync Cache.fixtures.ReplicationGroupNeedsUpdate
           (Cache.fixtures.MockClient None
              (Some (Cache.Data [Cache.fixtures.availableGroup
                             Cache.elasticache.AutomaticFailoverStatusDisabled]))
              (Some (Cache.Data [Cache.fixtures.cacheCluster
                                   Cache.fixtures.maintenanceWindow]))
              (Some (Cache.Data tt)) None))
        Cache.fixtures.creatingGroup = Some (false, out))
    by (vm_compute; reflexivity).
  exists out. split; [exact Hrun|].
  apply (Sync_frame _ _ _ _ _ Hrun).
Defined.


(** TestDelete's second case, run twice: the group is deleted at AWS, and
    the second Delete, answered in the same way, changes nothing. *)
Lemma Delete_again_witness :
  exists deleted again,
    Cache.run (Cache.Delete
                 (Cache.fixtures.MockClient None None None None (Some (Cache.Data tt))))
              (Cache.fixtures.finalized corev1alpha1.ReclaimDelete)
      = Some (false, deleted) /\
    Cache.run (Cache.Delete
                 (Cache.fixtures.MockClient None None None None (Some (Cache.Data tt))))
              (Cache.resource deleted) = Some (false, again) /\
    Cache.resource again = Cache.resource deleted.
Proof.
  pose (e := Cache.fixtures.MockClient None None None None (Some (Cache.Data tt))).
  pose (deleted :=
    {| Cache.resource := Cache.fixtures.replicationGroup
         [ Cache.fixtures.withReclaimPolicy corev1alpha1.ReclaimDelete;
           Cache.fixtures.withConditions
             [Cache.fixtures.condition corev1alpha1.Deleting
                corev1alpha1.ConditionTrue] ];
       Cache.sent := [Cache.DeleteReplicationGroup ""] |}).
  assert (Hrun : Cache.run (Cache.Delete e)
                   (Cache.fixtures.finalized corev1alpha1.ReclaimDelete)
                 = Some (false, deleted)) by (vm_compute; reflexivity).
  assert (Hnodup : NoDup (Cache.Finalizers (Cache.Meta
                     (Cache.fixtures.finalized corev1alpha1.ReclaimDelete))))
    by apply NoDup_singleton.
  destruct (Delete_again e e _ _ Hnodup Hrun) as [Hsucceeds _].
  destruct (Hsucceeds (or_intror eq_refl)) as (again & Hagain & Hsame).
  by exists deleted, again.
Defined.
